(** * The sprite launcher (src/sprite_cli/main.py)

    A shallow embedding of the Python launcher that locates the [sprite]
    binary, probes it, installs it when needed and delegates to it.

    The launcher is a sequence of library calls with exceptions, so the
    embedding is a state-and-exception monad over an explicit host:
    - the host ([Host]) says what the outside world answers: the home
      directory, the temporary file name, the downloaded text, what a
      spawned program does;
    - the state ([Sys]) holds what the launcher can observe or change: the
      search-path lookup and the existing paths ([FS]), the temporary
      files it created and has not removed, and the log of library calls
      in program order (every [print] is a log entry).

    What the model takes from the platform rather than from main.py:
    - a spawned program and a sleep may change the filesystem the locator
      looks at; the temporary script belongs to the launcher, and nothing
      but the launcher removes it;
    - a child always ends: with a timeout the wait is cut after that many
      time units, without one the call returns when the child exits;
    - the calls that raise are the ones that wait on the outside world
      (NamedTemporaryFile, urlopen, subprocess.run) and os.chmod and
      os.unlink on a missing file; shutil.which, Path.exists, print, the
      write to the open file and time.sleep return;
    - a user interrupt shows as KeyboardInterrupt raised by the call the
      launcher is waiting in. *)

From stdpp Require Import base decidable option list gmap strings.
From Stdlib Require Import ZArith Lia.

Local Open Scope string_scope.
Local Open Scope Z_scope.
Local Open Scope list_scope.

(** ** Python exceptions *)

(** The exception classes that the calls of main.py can raise, with the
    classes named by its [except] clauses.  [BaseException] is the root:
    it is the base of the two classes whose [base] is [None]. *)
Inductive ExcClass :=
| Exception
| KeyboardInterrupt
| OSError
| FileNotFoundError
| PermissionError
| URLError
| HTTPError
| SubprocessError
| TimeoutExpired
| CalledProcessError
| ValueError
| UnicodeError
| UnicodeDecodeError.

Scheme Equality for ExcClass.

(** The direct base class, as declared by the Python standard library. *)
Definition base (c : ExcClass) : option ExcClass :=
  match c with
  | Exception => None
  | KeyboardInterrupt => None
  | OSError => Some Exception
  | FileNotFoundError => Some OSError
  | PermissionError => Some OSError
  | URLError => Some OSError
  | HTTPError => Some URLError
  | SubprocessError => Some Exception
  | TimeoutExpired => Some SubprocessError
  | CalledProcessError => Some SubprocessError
  | ValueError => Some Exception
  | UnicodeError => Some ValueError
  | UnicodeDecodeError => Some UnicodeError
  end.

Fixpoint inherits (fuel : nat) (c d : ExcClass) : bool :=
  if ExcClass_beq c d then true
  else match fuel, base c with
       | S fuel', Some b => inherits fuel' b d
       | _, _ => false
       end.

(** [issubclass c d]: the hierarchy above is four levels deep. *)
Definition issubclass (c d : ExcClass) : bool := inherits 4 c d.

(** A raised exception: its class and [str(e)]. *)
Record PyExc := mkExc { exc_class : ExcClass; exc_msg : string }.

(** [except (c1, c2, ...)] catches [e] when it is an instance of one of
    the listed classes. *)
Definition caught_by (classes : list ExcClass) (e : PyExc) : bool :=
  existsb (issubclass (exc_class e)) classes.

(** ** The host *)

(** A path is its string: [Path(s)] and [str(p)] are the identity. *)
Definition Path := string.

(** What the launcher sees of the filesystem. *)
Record FS := mkFS {
  on_path : option string;   (* what shutil.which("sprite") answers *)
  present : gset string      (* the paths for which exists() holds *)
}.

(** What a spawned program does: it runs for [elapsed] time units and
    exits, or the call raises (the spawn fails, the output cannot be
    decoded, the user interrupts the wait). *)
Inductive Behaviour :=
| Exits (elapsed returncode : Z) (out err : string)
| Fails (e : PyExc).

Record Host := mkHost {
  host_home : string;                               (* Path.home() *)
  host_tmpname : PyExc + string;                    (* NamedTemporaryFile *)
  host_urlopen : string -> PyExc + string;          (* urlopen().read().decode() *)
  host_exec : list string -> FS -> Behaviour * FS;  (* a spawned argv *)
  host_wait : Z -> FS -> FS                         (* while the launcher sleeps *)
}.

(** ** The launcher's state and its log of library calls *)

Inductive Event :=
| EvWhich (cmd : string)
| EvExists (p : Path)
| EvPrint (text : string)
| EvRun (argv : list string) (capture_output : bool) (timeout : option Z)
| EvTempFile
| EvUrlopen (url : string)
| EvWrite (name text : string)
| EvChmod (name : string) (mode : Z)
| EvUnlink (name : string)
| EvSleep (secs : Z).

Record Sys := mkSys {
  fs : FS;
  tmp : gset string;     (* temporary files created and not yet removed *)
  log : list Event
}.

Definition emit (ev : Event) (s : Sys) : Sys :=
  mkSys (fs s) (tmp s) (log s ++ [ev]).

Definition with_fs (f : FS) (s : Sys) : Sys := mkSys f (tmp s) (log s).

Definition with_tmp (t : gset string) (s : Sys) : Sys := mkSys (fs s) t (log s).

(** ** The monad: state passing with Python exceptions *)

Inductive Res (A : Type) :=
| Ret (a : A)
| Raise (e : PyExc).
Arguments Ret {A} a.
Arguments Raise {A} e.

Definition M (A : Type) : Type := Sys -> Res A * Sys.

Definition ret {A} (a : A) : M A := fun s => (Ret a, s).

Definition raise {A} (e : PyExc) : M A := fun s => (Raise e, s).

Definition bind {A B} (m : M A) (k : A -> M B) : M B :=
  fun s => match m s with
           | (Ret a, s') => k a s'
           | (Raise e, s') => (Raise e, s')
           end.

(** The [except] clauses of a [try], tried in order: the first clause
    that lists a class of [e] handles it; with none, [e] goes on. *)
Fixpoint handle {A} (clauses : list (list ExcClass * (PyExc -> M A)))
    (e : PyExc) : M A :=
  match clauses with
  | [] => raise e
  | (classes, handler) :: rest =>
      if caught_by classes e then handler e else handle rest e
  end.

(** [try: body except ...: ... except ...: ...] *)
Definition try_except {A} (body : M A)
    (clauses : list (list ExcClass * (PyExc -> M A))) : M A :=
  fun s => match body s with
           | (Ret a, s') => (Ret a, s')
           | (Raise e, s') => handle clauses e s'
           end.

Declare Scope py_scope.
Delimit Scope py_scope with py.
Notation "x <- c1 ;; c2" := (bind c1 (fun x => c2))
  (at level 100, c1 at next level, right associativity) : py_scope.
Notation "c1 ;; c2" := (bind c1 (fun _ => c2))
  (at level 100, c2 at level 200, right associativity) : py_scope.
Local Open Scope py_scope.

(** ** Constants of main.py *)

Definition SPRITE_VERSION : string := "0.1.0".

Definition INSTALL_SCRIPT_URL : string :=
  "https://raw.githubusercontent.com/hotaq/Sprit-mutil/main/scripts/install.sh".

Definition USAGE : string :=
"Sprite Multi-Agent Workflow Toolkit 🤖

USAGE:
    sprite [COMMAND] [OPTIONS]

COMMANDS:
    init          Initialize a new multi-agent environment
    start         Start a multi-agent session
    attach        Attach to an existing session
    kill          Terminate a session
    status        Show system and session status
    agents        Manage AI agents
    config        Configuration management
    help          Show this help message

QUICK START:
    sprite init --agents 3
    sprite start
    sprite attach sprite-session

INSTALLATION:
    This Python wrapper will automatically install the Rust binary if needed.
    For manual installation, visit: https://github.com/hotaq/Sprit-mutil

For detailed help, run: sprite help
".

(** [subprocess.CompletedProcess]: the streams are [None] unless captured. *)
Record CompletedProcess := mkCompleted {
  returncode : Z;
  stdout : option string;
  stderr : option string
}.

(** [str(x)] of an optional string, as [print] shows it. *)
Definition py_str (x : option string) : string :=
  match x with
  | Some text => text
  | None => "None"
  end.

(** [a / b] on paths. *)
Definition joinpath (a b : string) : Path := a +:+ "/" +:+ b.

Section Launcher.

Variable H : Host.

(** ** The library calls *)

Definition print (text : string) : M unit :=
  fun s => (Ret tt, emit (EvPrint text) s).

Definition shutil_which (cmd : string) : M (option string) :=
  fun s => let s := emit (EvWhich cmd) s in (Ret (on_path (fs s)), s).

Definition path_exists (p : Path) : M bool :=
  fun s => let s := emit (EvExists p) s in
           (Ret (bool_decide (p ∈ present (fs s))), s).

(** [subprocess.run(argv, capture_output=..., text=True, timeout=...)]:
    the child does what the host says; with a timeout, a child that runs
    longer raises [TimeoutExpired]. *)
Definition subprocess_run (argv : list string) (capture_output : bool)
    (timeout : option Z) : M CompletedProcess :=
  fun s =>
    let s := emit (EvRun argv capture_output timeout) s in
    let '(b, fs') := host_exec H argv (fs s) in
    let s := with_fs fs' s in
    match b with
    | Fails e => (Raise e, s)
    | Exits elapsed rc out err =>
        let done :=
          if capture_output then mkCompleted rc (Some out) (Some err)
          else mkCompleted rc None None in
        match timeout with
        | Some t =>
            if t <? elapsed
            then (Raise (mkExc TimeoutExpired "timed out"), s)
            else (Ret done, s)
        | None => (Ret done, s)
        end
    end.

(** [tempfile.NamedTemporaryFile(mode='w', suffix='.sh', delete=False)]:
    the file exists from here on; leaving the [with] block closes it and
    does not remove it. *)
Definition NamedTemporaryFile : M string :=
  fun s =>
    let s := emit EvTempFile s in
    match host_tmpname H with
    | inl e => (Raise e, s)
    | inr name => (Ret name, with_tmp ({[name]} ∪ tmp s) s)
    end.

(** [urllib.request.urlopen(url)], [read()] and [decode('utf-8')]. *)
Definition urlopen_read (url : string) : M string :=
  fun s =>
    let s := emit (EvUrlopen url) s in
    match host_urlopen H url with
    | inl e => (Raise e, s)
    | inr text => (Ret text, s)
    end.

Definition file_write (name text : string) : M unit :=
  fun s => (Ret tt, emit (EvWrite name text) s).

Definition no_such_file (name : string) : PyExc :=
  mkExc FileNotFoundError
        ("[Errno 2] No such file or directory: '" +:+ name +:+ "'").

Definition os_chmod (name : string) (mode : Z) : M unit :=
  fun s =>
    let s := emit (EvChmod name mode) s in
    if bool_decide (name ∈ tmp s) then (Ret tt, s)
    else (Raise (no_such_file name), s).

Definition os_unlink (name : string) : M unit :=
  fun s =>
    let s := emit (EvUnlink name) s in
    if bool_decide (name ∈ tmp s) then (Ret tt, with_tmp (tmp s ∖ {[name]}) s)
    else (Raise (no_such_file name), s).

Definition time_sleep (secs : Z) : M unit :=
  fun s => let s := emit (EvSleep secs) s in
           (Ret tt, with_fs (host_wait H secs (fs s)) s).

(** ** get_sprite_binary_path *)

(** The [paths] list, in the order the source writes it. *)
Definition paths : list Path :=
  [ joinpath (joinpath (joinpath (host_home H) ".cargo") "bin") "sprite";
    joinpath (joinpath (joinpath (host_home H) ".local") "bin") "sprite";
    joinpath "/usr/local/bin" "sprite";
    joinpath "/usr/bin" "sprite" ].

(** [for path in paths: if path.exists(): return path] then [return None] *)
Fixpoint first_existing (candidates : list Path) : M (option Path) :=
  match candidates with
  | [] => ret None
  | path :: rest =>
      found <- path_exists path ;;
      if found then ret (Some path) else first_existing rest
  end.

(** [if sprite_in_path:] holds for a non-empty string. *)
Definition truthy (x : option string) : bool :=
  match x with
  | Some text => negb (bool_decide (text = ""))
  | None => false
  end.

Definition get_sprite_binary_path : M (option Path) :=
  sprite_in_path <- shutil_which "sprite" ;;
  match sprite_in_path with
  | Some p => if truthy sprite_in_path then ret (Some p) else first_existing paths
  | None => first_existing paths
  end.

(** ** install_sprite *)

(** The body of the [try] of install_sprite. *)
Definition install_body : M (option Path) :=
     script_path <- NamedTemporaryFile ;;
     print "📥 Downloading installation script..." ;;
     script_content <- urlopen_read INSTALL_SCRIPT_URL ;;
     file_write script_path script_content ;;
     os_chmod script_path 493 ;;
     print "🔧 Running installation..." ;;
     result <- subprocess_run [script_path] true None ;;
     os_unlink script_path ;;
     if returncode result =? 0 then
       print "✅ Sprite installed successfully!" ;;
       time_sleep 2 ;;
       sprite_path <- get_sprite_binary_path ;;
       match sprite_path with
       | Some p => ret (Some p)
       | None =>
           print "⚠️  Installation completed but sprite binary not found in PATH" ;;
           print "Please restart your terminal or add ~/.cargo/bin to your PATH" ;;
           ret None
       end
     else
       print "❌ Installation failed:" ;;
       print (py_str (stderr result)) ;;
       ret None.

Definition install_sprite : M (option Path) :=
  try_except install_body
    [ ([Exception],
       fun e => print ("❌ Installation failed: " +:+ exc_msg e) ;; ret None) ].

(** ** ensure_sprite_installed *)

(** The [if sprite_path and sprite_path.exists():] block: [Some p] when it
    returns [p], [None] when control falls through to the installation. *)
Definition probe_block (sprite_path : option Path) : M (option Path) :=
  match sprite_path with
  | None => ret None
  | Some p =>
      there <- path_exists p ;;
      if there then
        try_except
          (result <- subprocess_run [p; "--version"] true (Some 10) ;;
           if returncode result =? 0 then ret (Some p) else ret None)
          [ ([TimeoutExpired; SubprocessError; FileNotFoundError],
             fun _ => ret None) ]
      else ret None
  end.

Definition ensure_sprite_installed : M (option Path) :=
  sprite_path <- get_sprite_binary_path ;;
  returned <- probe_block sprite_path ;;
  match returned with
  | Some p => ret (Some p)
  | None =>
      print "🚀 Installing Sprite Multi-Agent Toolkit..." ;;
      install_sprite
  end.

(** ** run_sprite and main *)

Definition run_sprite (args : list string) : M Z :=
  sprite_path <- ensure_sprite_installed ;;
  match sprite_path with
  | None => print "❌ Failed to install or find sprite" ;; ret 1
  | Some p =>
      try_except
        (result <- subprocess_run (p :: args) false None ;;
         ret (returncode result))
        [ ([KeyboardInterrupt],
           fun _ => print "
👋 Interrupted by user" ;; ret 130);
          ([Exception],
           fun e => print ("❌ Error running sprite: " +:+ exc_msg e) ;; ret 1) ]
  end.

(** [len(sys.argv) > 1 and sys.argv[1] in tokens] *)
Definition argv1_in (argv tokens : list string) : bool :=
  bool_decide (1 < length argv)%nat && bool_decide (nth 1 argv "" ∈ tokens).

Definition main (argv : list string) : M Z :=
  if argv1_in argv ["--version"; "-V"] then
    print ("sprite " +:+ SPRITE_VERSION) ;; ret 0
  else if argv1_in argv ["--help"; "-h"] then
    print USAGE ;; ret 0
  else run_sprite (drop 1 argv).

End Launcher.

(** ** Reading a run *)

(** What get_sprite_binary_path computes from the filesystem it sees, and
    the calls it logs on the way ([get_sprite_binary_path_run] below). *)
Definition exists_in (f : FS) (p : Path) : bool := bool_decide (p ∈ present f).

Definition located (H : Host) (f : FS) : option Path :=
  if truthy (on_path f) then on_path f else List.find (exists_in f) (paths H).

Fixpoint scan_log (f : FS) (candidates : list Path) : list Event :=
  match candidates with
  | [] => []
  | p :: rest => EvExists p :: if exists_in f p then [] else scan_log f rest
  end.

Definition locate_log (H : Host) (f : FS) : list Event :=
  EvWhich "sprite" :: if truthy (on_path f) then [] else scan_log f (paths H).

(** The locator's calls: queries that change nothing. *)
Definition is_query (ev : Event) : bool :=
  match ev with
  | EvWhich _ | EvExists _ => true
  | _ => false
  end.

(** Each run of the locator asks the search path once. *)
Definition locator_runs (evs : list Event) : nat :=
  length (List.filter (fun ev => match ev with EvWhich _ => true | _ => false end) evs).

(** install_sprite calls NamedTemporaryFile first, once per invocation. *)
Definition installer_calls (evs : list Event) : nat :=
  length (List.filter (fun ev => match ev with EvTempFile => true | _ => false end) evs).

(** The path a health probe was run on, when [ev] is a health probe. *)
Definition probed (ev : Event) : option Path :=
  match ev with
  | EvRun [p; arg] true (Some 10) =>
      if String.eqb arg "--version" then Some p else None
  | _ => None
  end.

(** The argument vectors that main answers itself. *)
Definition informational (argv : list string) : bool :=
  argv1_in argv ["--version"; "-V"] || argv1_in argv ["--help"; "-h"].

(** The first half of ensure_sprite_installed: locate, then probe what
    was located.  [Some p] when the launcher goes on with [p], [None] when
    it goes on to install ([ensure_sprite_installed_split] below). *)
Definition locate_and_probe (H : Host) : M (option Path) :=
  sprite_path <- get_sprite_binary_path H ;;
  probe_block H sprite_path.

Definition INSTALLING : Event :=
  EvPrint "🚀 Installing Sprite Multi-Agent Toolkit...".

(** What the probe makes of the child's behaviour
    ([probe_block_run] below). *)
Definition probe_verdict (p : Path) (b : Behaviour) : Res (option Path) :=
  match b with
  | Exits elapsed rc _ _ =>
      if 10 <? elapsed then Ret None
      else if rc =? 0 then Ret (Some p) else Ret None
  | Fails e =>
      if caught_by [TimeoutExpired; SubprocessError; FileNotFoundError] e
      then Ret None else Raise e
  end.

(** Every run of [m] extends the log, and only by events that satisfy [P]. *)
Definition extends_with (P : Event -> Prop) {A} (m : M A) : Prop :=
  forall s r s', m s = (r, s') ->
    exists evs, log s' = log s ++ evs /\ Forall P evs.

(** ** Concrete hosts *)

Module Scenario.

Definition home : string := "/home/dev".
Definition script : string := "/tmp/tmpk3x9q2.sh".
Definition local_sprite : Path := "/home/dev/.local/bin/sprite".
Definition system_sprite : Path := "/usr/local/bin/sprite".

(** A host where the probe, the install script and the delegated run
    behave as given; the install script leaves [installs] on disk. *)
Definition exec (probe install delegate : Behaviour) (installs : gset string)
    (argv : list string) (f : FS) : Behaviour * FS :=
  if bool_decide (argv = [script])
  then (install, mkFS (on_path f) (installs ∪ present f))
  else match argv with
       | [_; "--version"] => (probe, f)
       | _ => (delegate, f)
       end.

Definition host (net : PyExc + string) (probe install delegate : Behaviour)
    (installs : gset string) : Host :=
  mkHost home (inr script) (fun _ => net)
         (exec probe install delegate installs) (fun _ f => f).

Definition fetched : PyExc + string := inr "#!/bin/sh
cargo install sprite
".

Definition version_ok : Behaviour := Exits 1 0 "sprite 0.1.0" "".
Definition install_ok : Behaviour := Exits 40 0 "" "".
Definition work_done : Behaviour := Exits 5 7 "" "".

(** Nothing installed, nothing on the search path. *)
Definition bare : Sys := mkSys (mkFS None ∅) ∅ [].

(** A binary on the search path. *)
Definition on_search_path : Sys :=
  mkSys (mkFS (Some system_sprite) {[system_sprite]}) ∅ [].

(** A file at a conventional place that the search path does not list. *)
Definition off_search_path : Sys :=
  mkSys (mkFS None {[system_sprite]}) ∅ [].

(** Everything works; the script installs into ~/.local/bin. *)
Definition healthy : Host :=
  host fetched version_ok install_ok work_done {[local_sprite]}.



(** No network: urlopen raises URLError. *)
Definition offline : Host :=
  host (inl (mkExc URLError "<urlopen error [Errno -2] Name or service not known>"))
       version_ok install_ok work_done ∅.

(** The downloaded text is not a program the kernel can run. *)
Definition script_not_runnable : Host :=
  host fetched version_ok
       (Fails (mkExc OSError "[Errno 8] Exec format error: '/tmp/tmpk3x9q2.sh'"))
       work_done ∅.

(** The file exists and has no execute permission. *)
Definition not_executable : Host :=
  host fetched
       (Fails (mkExc PermissionError
                     "[Errno 13] Permission denied: '/usr/local/bin/sprite'"))
       install_ok work_done {[local_sprite]}.

(** The probe never answers within the timeout. *)
Definition probe_hangs : Host :=
  host fetched (Exits 3600 0 "" "") install_ok work_done {[local_sprite]}.

Definition ctrl_c : PyExc := mkExc KeyboardInterrupt "".

(** sys.argv of [sprite start --detach]. *)
Definition argv : list string := ["sprite"; "start"; "--detach"].




Definition interrupted_at_download : Host :=
  host (inl ctrl_c) version_ok install_ok work_done {[local_sprite]}.

Definition interrupted_at_install : Host :=
  host fetched version_ok (Fails ctrl_c) work_done {[local_sprite]}.

End Scenario.

(** ** Counting calls *)

Definition count_if (f : Event -> bool) (evs : list Event) : nat :=
  length (List.filter f evs).

Definition is_tempfile (ev : Event) : bool :=
  match ev with EvTempFile => true | _ => false end.

Definition is_which (ev : Event) : bool :=
  match ev with EvWhich _ => true | _ => false end.

(** A run with captured output and a bounded wait: the health probe is
    the only such call in main.py. *)
Definition is_probe_run (ev : Event) : bool :=
  match ev with EvRun _ true (Some _) => true | _ => false end.

(** A run with inherited streams: the delegation. *)
Definition is_delegation (ev : Event) : bool :=
  match ev with EvRun _ false _ => true | _ => false end.

Definition probe_runs (evs : list Event) : nat := count_if is_probe_run evs.

Definition delegations (evs : list Event) : nat := count_if is_delegation evs.

(** Every run of [m] extends the log by at most [n] events that [f]
    counts. *)
Definition bounded (f : Event -> bool) (n : nat) {A} (m : M A) : Prop :=
  forall s r s', m s = (r, s') ->
    exists evs, log s' = log s ++ evs /\ (count_if f evs <= n)%nat.

(** [m] logs exactly the call [ev]. *)
Definition logs_call {A} (m : M A) (ev : Event) : Prop :=
  forall s, log (snd (m s)) = log s ++ [ev].

(** The calls that concern nothing but the script [name] and the fixed
    download address. *)
Definition own_business (name : string) (ev : Event) : Prop :=
  match ev with
  | EvRun argv capture timeout =>
      argv = [name] /\ capture = true /\ timeout = None
  | EvUrlopen url => url = INSTALL_SCRIPT_URL
  | EvWrite file _ | EvChmod file _ | EvUnlink file => file = name
  | EvTempFile | EvPrint _ | EvSleep _ | EvWhich _ | EvExists _ => True
  end.

Module Hosts.

(** No temporary file can be created. *)
Definition no_tmp : Host :=
  mkHost Scenario.home
         (inl (mkExc FileNotFoundError
                     "[Errno 2] No usable temporary directory found"))
         (fun _ => Scenario.fetched)
         (Scenario.exec Scenario.version_ok Scenario.install_ok
                        Scenario.work_done ∅)
         (fun _ f => f).

(** The binary on disk answers the version query with exit status 2. *)
Definition broken : Host :=
  Scenario.host Scenario.fetched (Exits 1 2 "" "sprite: bad config")
                Scenario.install_ok Scenario.work_done
                {[Scenario.local_sprite]}.

End Hosts.

(** ** Running the monad *)

Lemma bind_Ret {A B} (m : M A) (k : A -> M B) s a s' :
  m s = (Ret a, s') -> bind m k s = k a s'.
Proof. intros Hm. unfold bind. now rewrite Hm. Qed.

Lemma bind_Raise {A B} (m : M A) (k : A -> M B) s e s' :
  m s = (Raise e, s') -> bind m k s = (Raise e, s').
Proof. intros Hm. unfold bind. now rewrite Hm. Qed.

Lemma try_except_Ret {A} (body : M A) clauses s a s' :
  body s = (Ret a, s') -> try_except body clauses s = (Ret a, s').
Proof. intros Hb. unfold try_except. now rewrite Hb. Qed.

Lemma try_except_Raise {A} (body : M A) clauses s e s' :
  body s = (Raise e, s') -> try_except body clauses s = handle clauses e s'.
Proof. intros Hb. unfold try_except. now rewrite Hb. Qed.

Lemma Sys_eta s : mkSys (fs s) (tmp s) (log s) = s.
Proof. now destruct s. Qed.

Ltac sys_simpl :=
  repeat (progress (unfold emit, with_fs, with_tmp; cbn [fs tmp log fst snd])).

Ltac run_simpl :=
  repeat (progress (unfold ret, raise, emit, with_fs, with_tmp;
                    cbn [fs tmp log fst snd handle
                         returncode stdout stderr py_str])).

Ltac log_norm :=
  repeat rewrite <- app_assoc; cbn [app]; rewrite ?app_nil_r.

(** ** The class hierarchy *)

(** Every class listed is an interrupt or an [Exception]. *)
Lemma interrupt_or_Exception (c : ExcClass) :
  c = KeyboardInterrupt \/ issubclass c Exception = true.
Proof. destruct c; auto. Qed.

Lemma interrupt_not_Exception (c : ExcClass) :
  issubclass c KeyboardInterrupt = true -> issubclass c Exception = false.
Proof. destruct c; cbn; congruence. Qed.


(** ** The locator *)

Section Locator.

Variable H : Host.

Lemma first_existing_run (candidates : list Path) (s : Sys) :
  first_existing candidates s =
    (Ret (List.find (exists_in (fs s)) candidates),
     mkSys (fs s) (tmp s) (log s ++ scan_log (fs s) candidates)).
Proof.
  revert s. induction candidates as [|p rest IH]; intros s.
  - cbn. now rewrite app_nil_r, Sys_eta.
  - cbn [first_existing List.find scan_log]. unfold bind, path_exists.
    cbn [emit fs tmp log]. fold (exists_in (fs s) p).
    destruct (exists_in (fs s) p).
    + reflexivity.
    + rewrite IH. cbn [emit fs tmp log]. now rewrite <- app_assoc.
Qed.

Lemma get_sprite_binary_path_run (s : Sys) :
  get_sprite_binary_path H s =
    (Ret (located H (fs s)),
     mkSys (fs s) (tmp s) (log s ++ locate_log H (fs s))).
Proof.
  unfold get_sprite_binary_path, bind, shutil_which, located, locate_log.
  cbn [emit fs tmp log].
  destruct (on_path (fs s)) as [p|] eqn:Hp.
  - destruct (truthy (Some p)); [reflexivity|].
    rewrite first_existing_run. sys_simpl. now rewrite <- app_assoc.
  - cbn [truthy]. rewrite first_existing_run. sys_simpl.
    now rewrite <- app_assoc.
Qed.

Lemma scan_log_queries f candidates :
  Forall (fun ev => is_query ev = true) (scan_log f candidates).
Proof.
  induction candidates as [|p rest IH]; cbn; [constructor|].
  constructor; [reflexivity|]. destruct (exists_in f p); [constructor | exact IH].
Qed.

Lemma locate_log_queries f :
  Forall (fun ev => is_query ev = true) (locate_log H f).
Proof.
  unfold locate_log. constructor; [reflexivity|].
  destruct (truthy (on_path f)); [constructor | apply scan_log_queries].
Qed.



End Locator.




(** A search-path hit wins whatever the static list holds. *)
Lemma located_on_path (H : Host) (f : FS) (p : string) :
  on_path f = Some p -> p <> "" -> located H f = Some p.
Proof.
  intros Hp Hne. unfold located. rewrite Hp. cbn.
  now rewrite bool_decide_eq_false_2.
Qed.

(** Without a hit, a located path exists on disk. *)
Lemma located_static_exists (H : Host) (f : FS) (p : Path) :
  truthy (on_path f) = false -> located H f = Some p -> p ∈ present f.
Proof.
  intros Hw. unfold located. rewrite Hw. intros Hfind.
  apply find_some in Hfind as [_ Hex].
  now apply bool_decide_eq_true_1 in Hex.
Qed.

(** With no hit and no candidate on disk, nothing is located. *)
Lemma located_none (H : Host) (f : FS) :
  truthy (on_path f) = false ->
  (forall p, In p (paths H) -> p ∉ present f) ->
  located H f = None.
Proof.
  intros Hw Hnone. unfold located. rewrite Hw.
  destruct (List.find (exists_in f) (paths H)) as [p|] eqn:Hfind; [|reflexivity].
  apply find_some in Hfind as [Hin Hex].
  apply bool_decide_eq_true_1 in Hex. now apply Hnone in Hin.
Qed.

(** ** The informational flags *)

Lemma main_version (H : Host) (argv : list string) (s : Sys) :
  argv1_in argv ["--version"; "-V"] = true ->
  main H argv s = (Ret 0, emit (EvPrint "sprite 0.1.0") s).
Proof. intros Hv. unfold main. now rewrite Hv. Qed.

Lemma main_help (H : Host) (argv : list string) (s : Sys) :
  argv1_in argv ["--version"; "-V"] = false ->
  argv1_in argv ["--help"; "-h"] = true ->
  main H argv s = (Ret 0, emit (EvPrint USAGE) s).
Proof. intros Hv Hh. unfold main. now rewrite Hv, Hh. Qed.

Lemma main_delegates (H : Host) (argv : list string) (s : Sys) :
  informational argv = false ->
  main H argv s = run_sprite H (drop 1 argv) s.
Proof.
  unfold informational, main. intros Hi.
  apply orb_false_iff in Hi as [Hv Hh]. now rewrite Hv, Hh.
Qed.

Lemma argv1_in_cons (prog tok : string) (rest tokens : list string) :
  argv1_in (prog :: tok :: rest) tokens = bool_decide (tok ∈ tokens).
Proof.
  unfold argv1_in. cbn [length nth].
  rewrite bool_decide_eq_true_2; [reflexivity | lia].
Qed.

(** C6. When the first argument is a version token the launcher prints
    "sprite 0.1.0", when it is a help token it prints the usage text; it
    returns 0 and the run consists of that one print: the filesystem and
    the temporary files are untouched and the log holds no search, probe,
    download, installation or delegation. *)
Theorem main_informational_flags (H : Host) (prog tok : string)
    (rest : list string) (s : Sys) :
  (tok ∈ ["--version"; "-V"] ->
     main H (prog :: tok :: rest) s =
       (Ret 0, mkSys (fs s) (tmp s) (log s ++ [EvPrint "sprite 0.1.0"])))
  /\ (tok ∈ ["--help"; "-h"] ->
     main H (prog :: tok :: rest) s =
       (Ret 0, mkSys (fs s) (tmp s) (log s ++ [EvPrint USAGE]))).
Proof.
  split; intros Htok.
  - apply main_version. rewrite argv1_in_cons. now apply bool_decide_eq_true_2.
  - apply main_help; rewrite argv1_in_cons.
    + apply bool_decide_eq_false_2. intros Hv.
      rewrite !elem_of_cons, elem_of_nil in Htok, Hv.
      destruct Htok as [->|[->|[]]]; destruct Hv as [?|[?|[]]]; discriminate.
    + now apply bool_decide_eq_true_2.
Qed.

Lemma installer_calls_app (a b : list Event) :
  installer_calls (a ++ b) = (installer_calls a + installer_calls b)%nat.
Proof. unfold installer_calls. now rewrite List.filter_app, length_app. Qed.

Lemma installer_calls_queries (evs : list Event) :
  Forall (fun ev => is_query ev = true) evs -> installer_calls evs = 0%nat.
Proof.
  induction 1 as [|ev evs Hev _ IH]; [reflexivity|].
  destruct ev; try discriminate; exact IH.
Qed.

(** ** What a run adds to the log *)

Section Logging.

Variable H : Host.
Variable P : Event -> Prop.

Lemma extends_ret {A} (a : A) : extends_with P (ret a).
Proof.
  intros s r s' Hr. injection Hr as <- <-.
  exists []. split; [now rewrite app_nil_r | constructor].
Qed.

Lemma extends_bind {A B} (m : M A) (k : A -> M B) :
  extends_with P m -> (forall a, extends_with P (k a)) ->
  extends_with P (bind m k).
Proof.
  intros Hm Hk s r s' Hr. unfold bind in Hr.
  destruct (m s) as [[a|e] s1] eqn:Hms.
  - destruct (Hm _ _ _ Hms) as (evs1 & Hl1 & HP1).
    destruct (Hk a _ _ _ Hr) as (evs2 & Hl2 & HP2).
    exists (evs1 ++ evs2). split.
    + rewrite Hl2, Hl1. now rewrite <- app_assoc.
    + now apply Forall_app.
  - injection Hr as <- <-. exact (Hm _ _ _ Hms).
Qed.

Lemma extends_handle {A} (clauses : list (list ExcClass * (PyExc -> M A))) e :
  Forall (fun clause => forall e', extends_with P (snd clause e')) clauses ->
  extends_with P (handle clauses e).
Proof.
  induction 1 as [|[classes handler] rest Hh _ IH]; cbn [handle].
  - intros s r s' Hr. injection Hr as <- <-.
    exists []. split; [now rewrite app_nil_r | constructor].
  - destruct (caught_by classes e); [apply Hh | exact IH].
Qed.

Lemma extends_try {A} (body : M A) clauses :
  extends_with P body ->
  Forall (fun clause => forall e', extends_with P (snd clause e')) clauses ->
  extends_with P (try_except body clauses).
Proof.
  intros Hb Hc s r s' Hr. unfold try_except in Hr.
  destruct (body s) as [[a|e] s1] eqn:Hbs.
  - injection Hr as <- <-. exact (Hb _ _ _ Hbs).
  - destruct (Hb _ _ _ Hbs) as (evs1 & Hl1 & HP1).
    destruct (extends_handle clauses e Hc _ _ _ Hr) as (evs2 & Hl2 & HP2).
    exists (evs1 ++ evs2). split.
    + rewrite Hl2, Hl1. now rewrite <- app_assoc.
    + now apply Forall_app.
Qed.

(** A library call logs itself and nothing else. *)
Lemma extends_call {A} (m : M A) (ev : Event) :
  (forall s, log (snd (m s)) = log s ++ [ev]) -> P ev -> extends_with P m.
Proof.
  intros Hlog Hev s r s' Hr. exists [ev]. split.
  - specialize (Hlog s). now rewrite Hr in Hlog.
  - now constructor.
Qed.

Lemma extends_print text : P (EvPrint text) -> extends_with P (print text).
Proof. apply extends_call. reflexivity. Qed.

Lemma extends_subprocess_run argv capture timeout :
  P (EvRun argv capture timeout) ->
  extends_with P (subprocess_run H argv capture timeout).
Proof.
  apply extends_call. intros s. unfold subprocess_run.
  destruct (host_exec H argv (fs (emit (EvRun argv capture timeout) s)))
    as [[elapsed rc out err|e] f']; [|reflexivity].
  destruct timeout as [t|]; [|reflexivity].
  now destruct (t <? elapsed).
Qed.

Lemma extends_NamedTemporaryFile :
  P EvTempFile -> extends_with P (NamedTemporaryFile H).
Proof.
  apply extends_call. intros s. unfold NamedTemporaryFile.
  now destruct (host_tmpname H).
Qed.

Lemma extends_urlopen_read url :
  P (EvUrlopen url) -> extends_with P (urlopen_read H url).
Proof.
  apply extends_call. intros s. unfold urlopen_read.
  now destruct (host_urlopen H url).
Qed.

Lemma extends_file_write name text :
  P (EvWrite name text) -> extends_with P (file_write name text).
Proof. apply extends_call. reflexivity. Qed.

Lemma extends_os_chmod name mode :
  P (EvChmod name mode) -> extends_with P (os_chmod name mode).
Proof.
  apply extends_call. intros s. unfold os_chmod.
  now destruct (bool_decide _).
Qed.

Lemma extends_os_unlink name :
  P (EvUnlink name) -> extends_with P (os_unlink name).
Proof.
  apply extends_call. intros s. unfold os_unlink.
  now destruct (bool_decide _).
Qed.

Lemma extends_time_sleep secs :
  P (EvSleep secs) -> extends_with P (time_sleep H secs).
Proof. apply extends_call. reflexivity. Qed.

Lemma extends_get_sprite_binary_path :
  (forall ev, is_query ev = true -> P ev) ->
  extends_with P (get_sprite_binary_path H).
Proof.
  intros HP s r s' Hr. rewrite get_sprite_binary_path_run in Hr.
  injection Hr as <- <-. exists (locate_log H (fs s)). split; [reflexivity|].
  eapply Forall_impl; [apply locate_log_queries | exact HP].
Qed.

End Logging.

(** ** The probe *)

Section Runs.

Variable H : Host.

Lemma probe_block_absent (s : Sys) : probe_block H None s = (Ret None, s).
Proof. reflexivity. Qed.

Lemma probe_block_missing (p : Path) (s : Sys) :
  p ∉ present (fs s) ->
  probe_block H (Some p) s = (Ret None, emit (EvExists p) s).
Proof.
  intros Hno. unfold probe_block, bind, path_exists. sys_simpl.
  now rewrite bool_decide_eq_false_2.
Qed.

Lemma probe_block_run (p : Path) (s : Sys) (b : Behaviour) (f' : FS) :
  p ∈ present (fs s) ->
  host_exec H [p; "--version"] (fs s) = (b, f') ->
  probe_block H (Some p) s =
    (probe_verdict p b,
     mkSys f' (tmp s)
           (log s ++ [EvExists p; EvRun [p; "--version"] true (Some 10)])).
Proof.
  intros Hin Hex. unfold probe_block, bind, path_exists. sys_simpl.
  rewrite bool_decide_eq_true_2 by exact Hin.
  unfold try_except, bind, subprocess_run. sys_simpl. rewrite Hex.
  destruct b as [elapsed rc out err|e]; cbn [probe_verdict].
  - destruct (10 <? elapsed).
    + run_simpl. change (caught_by _ (mkExc TimeoutExpired _)) with true.
      run_simpl. now rewrite <- app_assoc.
    + run_simpl. destruct (rc =? 0); run_simpl; now rewrite <- app_assoc.
  - run_simpl. destruct (caught_by _ e); run_simpl; now rewrite <- app_assoc.
Qed.

Lemma locate_and_probe_run (s : Sys) :
  locate_and_probe H s =
    probe_block H (located H (fs s))
                (mkSys (fs s) (tmp s) (log s ++ locate_log H (fs s))).
Proof.
  unfold locate_and_probe, bind. now rewrite get_sprite_binary_path_run.
Qed.

Lemma ensure_sprite_installed_split (s : Sys) :
  ensure_sprite_installed H s =
    match locate_and_probe H s with
    | (Ret (Some p), s1) => (Ret (Some p), s1)
    | (Ret None, s1) => install_sprite H (emit INSTALLING s1)
    | (Raise e, s1) => (Raise e, s1)
    end.
Proof.
  unfold ensure_sprite_installed, locate_and_probe, bind.
  destruct (get_sprite_binary_path H s) as [[sprite_path|e] s0]; [|reflexivity].
  destruct (probe_block H sprite_path s0) as [[[p|]|e] s1]; reflexivity.
Qed.

(** Only the path that was located is ever probed. *)
Lemma locate_and_probe_log (s : Sys) r (s1 : Sys) :
  locate_and_probe H s = (r, s1) ->
  exists evs, log s1 = log s ++ evs
    /\ (forall ev p, In ev evs -> probed ev = Some p ->
          located H (fs s) = Some p)
    /\ installer_calls evs = 0%nat.
Proof.
  rewrite locate_and_probe_run.
  assert (Hq : forall ev, In ev (locate_log H (fs s)) -> is_query ev = true).
  { intros ev Hin. pose proof (locate_log_queries H (fs s)) as Hall.
    rewrite Forall_forall in Hall. apply Hall. now apply list_elem_of_In. }
  assert (Hcalls : forall tail, installer_calls tail = 0%nat ->
            installer_calls (locate_log H (fs s) ++ tail) = 0%nat).
  { intros tail Htail. rewrite installer_calls_app, Htail.
    now rewrite installer_calls_queries by apply locate_log_queries. }
  destruct (located H (fs s)) as [p|] eqn:Hloc.
  - destruct (decide (p ∈ present (fs s))) as [Hin|Hno].
    + destruct (host_exec H [p; "--version"] (fs s)) as [b f'] eqn:Hex.
      rewrite (probe_block_run p _ b f') by assumption.
      intros Hr. injection Hr as <- <-. sys_simpl.
      eexists. split; [now rewrite <- app_assoc|]. split.
      * intros ev q Hev Hpr. apply in_app_or in Hev as [Hev|Hev].
        -- apply Hq in Hev. now destruct ev.
        -- destruct Hev as [<-|[<-|[]]]; [discriminate|].
           cbn in Hpr. congruence.
      * now apply Hcalls.
    + rewrite probe_block_missing by assumption.
      intros Hr. injection Hr as <- <-. sys_simpl.
      eexists. split; [now rewrite <- app_assoc|]. split.
      * intros ev q Hev Hpr. apply in_app_or in Hev as [Hev|Hev].
        -- apply Hq in Hev. now destruct ev.
        -- destruct Hev as [<-|[]]. discriminate.
      * now apply Hcalls.
  - rewrite probe_block_absent. intros Hr. injection Hr as <- <-. sys_simpl.
    eexists. split; [reflexivity|]. split.
    + intros ev q Hev Hpr. apply Hq in Hev. now destruct ev.
    + rewrite <- (app_nil_r (locate_log H (fs s))). now apply Hcalls.
Qed.

End Runs.

(** ** The installer *)

Section Installer.

Variable H : Host.

(** The run of install_sprite when the download works and the script
    runs to its end. *)
Lemma install_sprite_script_exits (s : Sys) (name text : string)
    (elapsed rc : Z) (out err : string) (f1 : FS) :
  host_tmpname H = inr name ->
  host_urlopen H INSTALL_SCRIPT_URL = inr text ->
  host_exec H [name] (fs s) = (Exits elapsed rc out err, f1) ->
  let upto_unlink :=
    [ EvTempFile;
      EvPrint "📥 Downloading installation script...";
      EvUrlopen INSTALL_SCRIPT_URL;
      EvWrite name text;
      EvChmod name 493;
      EvPrint "🔧 Running installation...";
      EvRun [name] true None;
      EvUnlink name ] in
  let f2 := host_wait H 2 f1 in
  install_sprite H s =
    if rc =? 0 then
      (Ret (located H f2),
       mkSys f2 (({[name]} ∪ tmp s) ∖ {[name]})
             (log s ++ upto_unlink
                ++ [EvPrint "✅ Sprite installed successfully!"; EvSleep 2]
                ++ locate_log H f2
                ++ match located H f2 with
                   | Some _ => []
                   | None =>
                       [ EvPrint "⚠️  Installation completed but sprite binary not found in PATH";
                         EvPrint "Please restart your terminal or add ~/.cargo/bin to your PATH" ]
                   end))
    else
      (Ret None,
       mkSys f1 (({[name]} ∪ tmp s) ∖ {[name]})
             (log s ++ upto_unlink
                ++ [EvPrint "❌ Installation failed:"; EvPrint err])).
Proof.
  intros Htmp Hnet Hex upto_unlink f2. subst upto_unlink f2.
  unfold install_sprite, try_except, install_body, bind.
  unfold NamedTemporaryFile. rewrite Htmp.
  unfold print, urlopen_read. sys_simpl. rewrite Hnet.
  unfold file_write, os_chmod. sys_simpl.
  rewrite bool_decide_eq_true_2 by set_solver.
  unfold subprocess_run. sys_simpl. rewrite Hex.
  unfold os_unlink. sys_simpl.
  rewrite bool_decide_eq_true_2 by set_solver.
  cbn [returncode stderr py_str].
  destruct (rc =? 0).
  - unfold time_sleep. sys_simpl. rewrite get_sprite_binary_path_run. sys_simpl.
    destruct (located H (host_wait H 2 f1)); run_simpl; now log_norm.
  - run_simpl. now log_norm.
Qed.

(** What the log of an installation never holds: a health probe. *)
Lemma install_sprite_no_probe :
  extends_with (fun ev => probed ev = None) (install_sprite H).
Proof.
  unfold install_sprite, install_body.
  apply extends_try.
  - repeat first
      [ apply extends_ret
      | apply extends_print; reflexivity
      | apply extends_subprocess_run; reflexivity
      | apply extends_NamedTemporaryFile; reflexivity
      | apply extends_urlopen_read; reflexivity
      | apply extends_file_write; reflexivity
      | apply extends_os_chmod; reflexivity
      | apply extends_os_unlink; reflexivity
      | apply extends_time_sleep; reflexivity
      | apply extends_get_sprite_binary_path; intros [] ?; (discriminate || reflexivity)
      | apply extends_bind; [|intros ?]
      | match goal with
        | |- extends_with _ (if ?c then _ else _) => destruct c
        | |- extends_with _ (match ?x with _ => _ end) => destruct x
        end ].
  - repeat constructor. intros e. cbn [snd].
    apply extends_bind; [apply extends_print; reflexivity | intros _; apply extends_ret].
Qed.

(** Whatever the script does, once it has run to its end the temporary
    file is gone again. *)
Lemma install_sprite_removes_after_script (s : Sys) (name text : string)
    (elapsed rc : Z) (out err : string) (f1 : FS) :
  host_tmpname H = inr name ->
  host_urlopen H INSTALL_SCRIPT_URL = inr text ->
  host_exec H [name] (fs s) = (Exits elapsed rc out err, f1) ->
  name ∉ tmp (snd (install_sprite H s)).
Proof.
  intros Htmp Hnet Hex.
  rewrite (install_sprite_script_exits s name text elapsed rc out err f1)
    by assumption.
  destruct (rc =? 0); cbn [snd tmp];
    intros [_ Hne]%elem_of_difference; apply Hne; now apply elem_of_singleton.
Qed.

End Installer.

(** ** The launcher *)

Section Delegation.

Variable H : Host.

Lemma run_sprite_no_path (args : list string) (s s1 : Sys) :
  ensure_sprite_installed H s = (Ret None, s1) ->
  run_sprite H args s =
    (Ret 1, emit (EvPrint "❌ Failed to install or find sprite") s1).
Proof. intros He. unfold run_sprite, bind. now rewrite He. Qed.

Lemma run_sprite_propagates (args : list string) (s s1 : Sys) (e : PyExc) :
  ensure_sprite_installed H s = (Raise e, s1) ->
  run_sprite H args s = (Raise e, s1).
Proof. intros He. unfold run_sprite, bind. now rewrite He. Qed.

Lemma run_sprite_delegates (args : list string) (s s1 : Sys) (p : Path)
    (b : Behaviour) (f2 : FS) :
  ensure_sprite_installed H s = (Ret (Some p), s1) ->
  host_exec H (p :: args) (fs s1) = (b, f2) ->
  run_sprite H args s =
    match b with
    | Exits _ rc _ _ =>
        (Ret rc, mkSys f2 (tmp s1) (log s1 ++ [EvRun (p :: args) false None]))
    | Fails e =>
        if issubclass (exc_class e) KeyboardInterrupt then
          (Ret 130,
           mkSys f2 (tmp s1)
                 (log s1 ++ [EvRun (p :: args) false None;
                             EvPrint "
👋 Interrupted by user"]))
        else
          (Ret 1,
           mkSys f2 (tmp s1)
                 (log s1 ++ [EvRun (p :: args) false None;
                             EvPrint ("❌ Error running sprite: " +:+ exc_msg e)]))
    end.
Proof.
  intros He Hex. unfold run_sprite, bind. rewrite He.
  unfold try_except, bind, subprocess_run. sys_simpl. rewrite Hex.
  destruct b as [elapsed rc out err|e].
  - reflexivity.
  - cbn [handle]. unfold caught_by. cbn [existsb].
    destruct (interrupt_or_Exception (exc_class e)) as [Hc|Hc].
    + rewrite Hc. cbn. unfold print, bind. run_simpl. now log_norm.
    + rewrite Hc. destruct (issubclass (exc_class e) KeyboardInterrupt) eqn:Hk.
      * apply interrupt_not_Exception in Hk. congruence.
      * cbn. unfold print, bind. run_simpl. now log_norm.
Qed.

End Delegation.

(** ** The happy path *)

(** C3. When the locator finds [p] and the probe of [p] exits zero within
    the timeout, ensure_sprite_installed returns [p] after the locator's
    queries, the existence check and the probe; the whole run of main
    never calls the installer, and it runs [p] with the forwarded
    arguments. *)
Theorem happy_path_never_installs (H : Host) (s : Sys) (p : Path)
    (elapsed : Z) (out err : string) (f' : FS) (argv : list string) :
  located H (fs s) = Some p ->
  p ∈ present (fs s) ->
  host_exec H [p; "--version"] (fs s) = (Exits elapsed 0 out err, f') ->
  elapsed <= 10 ->
  informational argv = false ->
  ensure_sprite_installed H s =
    (Ret (Some p),
     mkSys f' (tmp s)
           (log s ++ locate_log H (fs s)
              ++ [EvExists p; EvRun [p; "--version"] true (Some 10)]))
  /\ exists r s2 evs,
       main H argv s = (r, s2)
       /\ log s2 = log s ++ evs
       /\ installer_calls evs = 0%nat
       /\ In (EvRun (p :: drop 1 argv) false None) evs.
Proof.
  intros Hloc Hin Hex Hfast Hargv.
  assert (Hens : ensure_sprite_installed H s =
    (Ret (Some p),
     mkSys f' (tmp s)
           (log s ++ locate_log H (fs s)
              ++ [EvExists p; EvRun [p; "--version"] true (Some 10)]))).
  { rewrite ensure_sprite_installed_split, locate_and_probe_run, Hloc.
    erewrite probe_block_run; [|exact Hin|exact Hex]. cbn [probe_verdict].
    replace (10 <? elapsed) with false by (symmetry; apply Z.ltb_ge; lia).
    sys_simpl. now log_norm. }
  split; [exact Hens|].
  rewrite main_delegates by exact Hargv.
  destruct (host_exec H (p :: drop 1 argv) f') as [b f2] eqn:Hwork.
  rewrite (run_sprite_delegates H _ _ _ p b f2 Hens) by exact Hwork.
  assert (Hpre : installer_calls
            (locate_log H (fs s)
               ++ [EvExists p; EvRun [p; "--version"] true (Some 10)]) = 0%nat).
  { rewrite installer_calls_app.
    now rewrite installer_calls_queries by apply locate_log_queries. }
  destruct b as [t rc o e2|e];
    [|destruct (issubclass (exc_class e) KeyboardInterrupt)];
    do 3 eexists; (split; [reflexivity|]); sys_simpl;
    (split; [rewrite <- app_assoc; reflexivity|]);
    (split; [rewrite installer_calls_app, Hpre; reflexivity|]);
    apply in_or_app; right; left; reflexivity.
Qed.

(** ** Delegation *)

(** C5. With an argument vector that is neither a version nor a help
    request, once ensure_sprite_installed has produced [p], main runs
    [p] followed by the arguments after the program name, with the
    streams inherited (nothing captured) and without a timeout, and
    returns the exit status of that run as it is. *)
Theorem delegation_forwards_and_mirrors (H : Host) (argv : list string)
    (s s1 : Sys) (p : Path) (elapsed rc : Z) (out err : string) (f2 : FS) :
  informational argv = false ->
  ensure_sprite_installed H s = (Ret (Some p), s1) ->
  host_exec H (p :: drop 1 argv) (fs s1) = (Exits elapsed rc out err, f2) ->
  main H argv s =
    (Ret rc,
     mkSys f2 (tmp s1) (log s1 ++ [EvRun (p :: drop 1 argv) false None])).
Proof.
  intros Hargv Hens Hwork. rewrite main_delegates by exact Hargv.
  now rewrite (run_sprite_delegates H _ _ _ p _ f2 Hens Hwork).
Qed.

(** ** After the install script *)



(** ** Interrupts and errors *)



(** ** The freshly installed binary *)

(** A run with inherited streams is not a health probe. *)
Lemma probed_uncaptured (argv : list string) (timeout : option Z) :
  probed (EvRun argv false timeout) = None.
Proof. destruct argv as [|? [|? [|? ?]]]; reflexivity. Qed.

(** C10. The launcher has reached the installer and the installer returns
    [q].  Then ensure_sprite_installed returns [q]; the probes of the run
    all come before the installation and are probes of the path located
    first; from the installation on there is no probe, and main goes
    straight on to run [q] with the forwarded arguments. *)
Theorem installed_binary_runs_unprobed (H : Host) (argv : list string)
    (s0 s1 s2 : Sys) (q : Path) :
  informational argv = false ->
  locate_and_probe H s0 = (Ret None, s1) ->
  install_sprite H (emit INSTALLING s1) = (Ret (Some q), s2) ->
  ensure_sprite_installed H s0 = (Ret (Some q), s2)
  /\ (exists before after,
        log s1 = log s0 ++ before
        /\ log s2 = log s1 ++ INSTALLING :: after
        /\ (forall ev p, In ev before -> probed ev = Some p ->
              located H (fs s0) = Some p)
        /\ Forall (fun ev => probed ev = None) after)
  /\ (exists r s3 rest,
        main H argv s0 = (r, s3)
        /\ log s3 = log s2 ++ EvRun (q :: drop 1 argv) false None :: rest
        /\ Forall (fun ev => probed ev = None)
                  (EvRun (q :: drop 1 argv) false None :: rest)).
Proof.
  intros Hargv Hreach Hinst.
  assert (Hens : ensure_sprite_installed H s0 = (Ret (Some q), s2)).
  { now rewrite ensure_sprite_installed_split, Hreach. }
  split; [exact Hens|]. split.
  - destruct (locate_and_probe_log H _ _ _ Hreach) as (before & Hb & Hprobes & _).
    destruct (install_sprite_no_probe H _ _ _ Hinst) as (after & Ha & Hnone).
    exists before, after. repeat split; try assumption.
    rewrite Ha. sys_simpl. now log_norm.
  - rewrite main_delegates by exact Hargv.
    destruct (host_exec H (q :: drop 1 argv) (fs s2)) as [b f3] eqn:Hwork.
    rewrite (run_sprite_delegates H _ _ _ q b f3 Hens Hwork).
    destruct b as [t rc o e2|e];
      [|destruct (issubclass (exc_class e) KeyboardInterrupt)];
      do 3 eexists; (split; [reflexivity|]); sys_simpl;
      (split; [reflexivity|]);
      (constructor; [apply probed_uncaptured | repeat constructor]).
Qed.

(** ** Where cleanup and probing fall short *)

(** When the download raises, the handler of install_sprite reports it
    and returns; os.unlink is never reached. *)
Lemma install_sprite_download_fails (H : Host) (s : Sys) (name : string)
    (e : PyExc) :
  host_tmpname H = inr name ->
  host_urlopen H INSTALL_SCRIPT_URL = inl e ->
  exc_class e <> KeyboardInterrupt ->
  install_sprite H s =
    (Ret None,
     mkSys (fs s) ({[name]} ∪ tmp s)
           (log s ++ [ EvTempFile;
                       EvPrint "📥 Downloading installation script...";
                       EvUrlopen INSTALL_SCRIPT_URL;
                       EvPrint ("❌ Installation failed: " +:+ exc_msg e) ])).
Proof.
  intros Htmp Hnet Hc.
  unfold install_sprite, try_except, install_body, bind.
  unfold NamedTemporaryFile. rewrite Htmp.
  unfold print, urlopen_read. sys_simpl. rewrite Hnet.
  cbn [handle]. unfold caught_by. cbn [existsb].
  destruct (interrupt_or_Exception (exc_class e)) as [Hk|Hk]; [contradiction|].
  rewrite Hk. cbn. run_simpl. now log_norm.
Qed.

(** The same when running the script raises. *)
Lemma install_sprite_script_raises (H : Host) (s : Sys) (name text : string)
    (e : PyExc) (f1 : FS) :
  host_tmpname H = inr name ->
  host_urlopen H INSTALL_SCRIPT_URL = inr text ->
  host_exec H [name] (fs s) = (Fails e, f1) ->
  exc_class e <> KeyboardInterrupt ->
  install_sprite H s =
    (Ret None,
     mkSys f1 ({[name]} ∪ tmp s)
           (log s ++ [ EvTempFile;
                       EvPrint "📥 Downloading installation script...";
                       EvUrlopen INSTALL_SCRIPT_URL;
                       EvWrite name text;
                       EvChmod name 493;
                       EvPrint "🔧 Running installation...";
                       EvRun [name] true None;
                       EvPrint ("❌ Installation failed: " +:+ exc_msg e) ])).
Proof.
  intros Htmp Hnet Hex Hc.
  unfold install_sprite, try_except, install_body, bind.
  unfold NamedTemporaryFile. rewrite Htmp.
  unfold print, urlopen_read. sys_simpl. rewrite Hnet.
  unfold file_write, os_chmod. sys_simpl.
  rewrite bool_decide_eq_true_2
    by (apply elem_of_union; left; now apply elem_of_singleton).
  unfold subprocess_run. sys_simpl. rewrite Hex.
  cbn [handle]. unfold caught_by. cbn [existsb].
  destruct (interrupt_or_Exception (exc_class e)) as [Hk|Hk]; [contradiction|].
  rewrite Hk. cbn. run_simpl. now log_norm.
Qed.

(** C1, at two hosts.  Without network, and with a downloaded text that
    cannot be executed, install_sprite returns [None] and the temporary
    script it created is still there: the log holds the creation of the
    file and no os.unlink. *)
Theorem install_sprite_leaves_tempfile :
  (fst (install_sprite Scenario.offline Scenario.bare) = Ret None
   /\ Scenario.script ∈ tmp (snd (install_sprite Scenario.offline Scenario.bare))
   /\ log (snd (install_sprite Scenario.offline Scenario.bare))
        = [ EvTempFile;
            EvPrint "📥 Downloading installation script...";
            EvUrlopen INSTALL_SCRIPT_URL;
            EvPrint "❌ Installation failed: <urlopen error [Errno -2] Name or service not known>" ])
  /\ (fst (install_sprite Scenario.script_not_runnable Scenario.bare) = Ret None
      /\ Scenario.script
           ∈ tmp (snd (install_sprite Scenario.script_not_runnable Scenario.bare))
      /\ In EvTempFile
            (log (snd (install_sprite Scenario.script_not_runnable Scenario.bare)))
      /\ ~ In (EvUnlink Scenario.script)
            (log (snd (install_sprite Scenario.script_not_runnable Scenario.bare)))).
Proof.
  split.
  - rewrite (install_sprite_download_fails Scenario.offline Scenario.bare
               Scenario.script
               (mkExc URLError "<urlopen error [Errno -2] Name or service not known>"));
      [| reflexivity | reflexivity | discriminate].
    cbn [fst snd tmp log Scenario.bare].
    split; [reflexivity|]. split; [|reflexivity].
    apply elem_of_union; left; now apply elem_of_singleton.
  - erewrite (install_sprite_script_raises Scenario.script_not_runnable
                Scenario.bare Scenario.script);
      [| reflexivity | reflexivity | reflexivity | discriminate].
    cbn [fst snd tmp log Scenario.bare].
    split; [reflexivity|]. split; [|split].
    + apply elem_of_union; left; now apply elem_of_singleton.
    + now left.
    + intros Hin. cbn in Hin. intuition discriminate.
Qed.

(** The probe counts as passed exactly when the child exits zero within
    the ten units. *)
Lemma probe_verdict_passes (p : Path) (b : Behaviour) :
  probe_verdict p b = Ret (Some p) <->
  exists elapsed out err, b = Exits elapsed 0 out err /\ elapsed <= 10.
Proof.
  split.
  - destruct b as [elapsed rc out err|e]; cbn [probe_verdict].
    + destruct (10 <? elapsed) eqn:Hslow; [discriminate|].
      destruct (rc =? 0) eqn:Hrc; [|discriminate]. intros _.
      apply Z.eqb_eq in Hrc as ->. apply Z.ltb_ge in Hslow.
      now exists elapsed, out, err.
    + now destruct (caught_by _ e).
  - intros (elapsed & out & err & -> & Hfast). cbn.
    now replace (10 <? elapsed) with false by (symmetry; apply Z.ltb_ge; lia).
Qed.

(** A non-zero exit, a timeout, and the exceptions the [except] clause
    lists send the launcher on to the installation. *)
Lemma probe_verdict_fails (p : Path) (b : Behaviour) :
  match b with
  | Exits elapsed rc _ _ => 10 < elapsed \/ rc <> 0
  | Fails e =>
      In (exc_class e)
         [TimeoutExpired; SubprocessError; CalledProcessError; FileNotFoundError]
  end ->
  probe_verdict p b = Ret None.
Proof.
  destruct b as [elapsed rc out err|[c msg]]; cbn.
  - intros [Hslow|Hrc].
    + now replace (10 <? elapsed) with true by (symmetry; apply Z.ltb_lt; lia).
    + destruct (10 <? elapsed); [reflexivity|].
      now replace (rc =? 0) with false by (symmetry; now apply Z.eqb_neq).
  - intros [<-|[<-|[<-|[<-|[]]]]]; reflexivity.
Qed.

(** Every other exception leaves the probe as it is. *)
Lemma probe_verdict_raises (p : Path) (e : PyExc) :
  ~ In (exc_class e)
       [TimeoutExpired; SubprocessError; CalledProcessError; FileNotFoundError] ->
  probe_verdict p (Fails e) = Raise e.
Proof.
  destruct e as [c msg]. cbn. intros Hnot.
  destruct c; try reflexivity; exfalso; apply Hnot; auto.
Qed.

(** So a spawn failure the clause does not list surfaces from main, and
    nothing is installed. *)
Lemma probe_error_surfaces (H : Host) (argv : list string) (s : Sys)
    (p : Path) (e : PyExc) (f' : FS) :
  informational argv = false ->
  located H (fs s) = Some p ->
  p ∈ present (fs s) ->
  host_exec H [p; "--version"] (fs s) = (Fails e, f') ->
  ~ In (exc_class e)
       [TimeoutExpired; SubprocessError; CalledProcessError; FileNotFoundError] ->
  main H argv s =
    (Raise e,
     mkSys f' (tmp s)
           (log s ++ locate_log H (fs s)
              ++ [EvExists p; EvRun [p; "--version"] true (Some 10)])).
Proof.
  intros Hargv Hloc Hin Hex Hnot. rewrite main_delegates by exact Hargv.
  apply run_sprite_propagates.
  rewrite ensure_sprite_installed_split, locate_and_probe_run, Hloc.
  erewrite probe_block_run; [|exact Hin|exact Hex].
  rewrite probe_verdict_raises by exact Hnot. sys_simpl. now log_norm.
Qed.

(** A failed probe that the clause handles leads to the installation:
    the banner is printed and install_sprite takes over. *)
Lemma probe_failure_installs (H : Host) (s : Sys) (p : Path) (b : Behaviour)
    (f' : FS) :
  located H (fs s) = Some p ->
  p ∈ present (fs s) ->
  host_exec H [p; "--version"] (fs s) = (b, f') ->
  probe_verdict p b = Ret None ->
  ensure_sprite_installed H s =
    install_sprite H
      (mkSys f' (tmp s)
             (log s ++ locate_log H (fs s)
                ++ [EvExists p; EvRun [p; "--version"] true (Some 10);
                    INSTALLING])).
Proof.
  intros Hloc Hin Hex Hverdict.
  rewrite ensure_sprite_installed_split, locate_and_probe_run, Hloc.
  erewrite probe_block_run; [|exact Hin|exact Hex]. rewrite Hverdict.
  sys_simpl. now log_norm.
Qed.

(** C2, at a host where /usr/local/bin/sprite exists without execute
    permission (so the search path does not list it and the static list
    does).  The probe raises PermissionError; main raises it in turn: the
    installer is not called and the error reaches the user. *)
Theorem probe_permission_error_surfaces :
  fst (main Scenario.not_executable ["sprite"; "status"] Scenario.off_search_path)
    = Raise (mkExc PermissionError
                   "[Errno 13] Permission denied: '/usr/local/bin/sprite'")
  /\ log (snd (main Scenario.not_executable ["sprite"; "status"]
                    Scenario.off_search_path))
    = [ EvWhich "sprite";
        EvExists "/home/dev/.cargo/bin/sprite";
        EvExists "/home/dev/.local/bin/sprite";
        EvExists "/usr/local/bin/sprite";
        EvExists "/usr/local/bin/sprite";
        EvRun ["/usr/local/bin/sprite"; "--version"] true (Some 10) ]
  /\ installer_calls
       (log (snd (main Scenario.not_executable ["sprite"; "status"]
                       Scenario.off_search_path))) = 0%nat.
Proof.
  rewrite (probe_error_surfaces Scenario.not_executable ["sprite"; "status"]
             Scenario.off_search_path Scenario.system_sprite
             (mkExc PermissionError
                    "[Errno 13] Permission denied: '/usr/local/bin/sprite'")
             (fs Scenario.off_search_path)).
  - cbn [fst snd log]. repeat split; vm_compute; reflexivity.
  - reflexivity.
  - vm_compute. reflexivity.
  - vm_compute. reflexivity.
  - vm_compute. reflexivity.
  - cbn. intuition discriminate.
Qed.

(** ** The theorems at concrete hosts *)

Module Witness.

Import Scenario.

(** A working binary on the search path: no installation. *)
Lemma happy_path :
  ensure_sprite_installed healthy on_search_path =
    (Ret (Some system_sprite),
     mkSys (fs on_search_path) ∅
           [ EvWhich "sprite";
             EvExists system_sprite;
             EvRun [system_sprite; "--version"] true (Some 10) ]).
Proof.
  apply (happy_path_never_installs healthy on_search_path system_sprite
           1 "sprite 0.1.0" "" (fs on_search_path) argv).
  - reflexivity.
  - vm_compute. reflexivity.
  - vm_compute. reflexivity.
  - lia.
  - reflexivity.
Defined.

(** The exit status 7 of the delegated run is the launcher's. *)
Lemma delegation :
  let s1 := snd (ensure_sprite_installed healthy on_search_path) in
  main healthy argv on_search_path =
    (Ret 7,
     mkSys (fs s1) (tmp s1)
           (log s1 ++ [EvRun [system_sprite; "start"; "--detach"] false None])).
Proof.
  apply (delegation_forwards_and_mirrors healthy argv on_search_path
           (snd (ensure_sprite_installed healthy on_search_path))
           system_sprite 5 7 "" "").
  - reflexivity.
  - vm_compute. reflexivity.
  - vm_compute. reflexivity.
Defined.

(** [-V] and [--help] on a machine with nothing installed. *)
Lemma flags :
  main healthy ["sprite"; "-V"] bare =
    (Ret 0, mkSys (fs bare) ∅ [EvPrint "sprite 0.1.0"])
  /\ main healthy ["sprite"; "--help"; "init"] bare =
    (Ret 0, mkSys (fs bare) ∅ [EvPrint USAGE]).
Proof.
  split.
  - apply (proj1 (main_informational_flags healthy "sprite" "-V" [] bare)).
    apply list_elem_of_In. simpl. tauto.
  - apply (proj2 (main_informational_flags healthy "sprite" "--help" ["init"] bare)).
    apply list_elem_of_In. simpl. tauto.
Defined.




(** Nothing installed at first: the binary the script installs is run
    without a probe. *)
Lemma fresh_install :
  ensure_sprite_installed healthy bare =
    (Ret (Some local_sprite),
     snd (install_sprite healthy
            (emit INSTALLING (snd (locate_and_probe healthy bare))))).
Proof.
  apply (installed_binary_runs_unprobed healthy argv bare
           (snd (locate_and_probe healthy bare))).
  - reflexivity.
  - vm_compute. reflexivity.
  - vm_compute. reflexivity.
Defined.

End Witness.

(** ** How often a run calls what *)

Lemma count_if_app (f : Event -> bool) (a b : list Event) :
  count_if f (a ++ b) = (count_if f a + count_if f b)%nat.
Proof. unfold count_if. now rewrite List.filter_app, length_app. Qed.

Lemma count_if_none (f : Event -> bool) (evs : list Event) :
  Forall (fun ev => f ev = false) evs -> count_if f evs = 0%nat.
Proof.
  induction 1 as [|ev evs Hev _ IH]; [reflexivity|].
  unfold count_if in *. cbn [List.filter]. now rewrite Hev.
Qed.

Lemma count_if_In (f : Event -> bool) (ev : Event) (evs : list Event) :
  In ev evs -> f ev = true -> (1 <= count_if f evs)%nat.
Proof.
  intros Hin Hf. apply in_split in Hin as (a & b & ->).
  rewrite count_if_app. unfold count_if at 2. cbn [List.filter].
  rewrite Hf. cbn [length]. lia.
Qed.

Section Bounds.

Variable h : Host.
Variable f : Event -> bool.

Lemma bounded_weaken {A} (m : M A) (n n' : nat) :
  bounded f n m -> (n <= n')%nat -> bounded f n' m.
Proof.
  intros Hm Hle s r s' Hr. destruct (Hm _ _ _ Hr) as (evs & Hl & Hc).
  exists evs. split; [exact Hl | lia].
Qed.

Lemma bounded_ret {A} (a : A) : bounded f 0 (ret a).
Proof.
  intros s r s' Hr. injection Hr as <- <-.
  exists []. split; [now rewrite app_nil_r | reflexivity].
Qed.

Lemma bounded_bind {A B} (m : M A) (k : A -> M B) (n1 n2 : nat) :
  bounded f n1 m -> (forall a, bounded f n2 (k a)) ->
  bounded f (n1 + n2) (bind m k).
Proof.
  intros Hm Hk s r s' Hr. unfold bind in Hr.
  destruct (m s) as [[a|e] s1] eqn:Hms.
  - destruct (Hm _ _ _ Hms) as (evs1 & Hl1 & Hc1).
    destruct (Hk a _ _ _ Hr) as (evs2 & Hl2 & Hc2).
    exists (evs1 ++ evs2). split.
    + rewrite Hl2, Hl1. now rewrite <- app_assoc.
    + rewrite count_if_app. lia.
  - injection Hr as <- <-. destruct (Hm _ _ _ Hms) as (evs1 & Hl1 & Hc1).
    exists evs1. split; [exact Hl1 | lia].
Qed.

Lemma bounded_if {A} (c : bool) (a b : M A) (n1 n2 : nat) :
  bounded f n1 a -> bounded f n2 b ->
  bounded f (Nat.max n1 n2) (if c then a else b).
Proof.
  intros Ha Hb. destruct c; eapply bounded_weaken; eauto; lia.
Qed.

Lemma bounded_option {A B} (o : option A) (k : A -> M B) (d : M B)
    (n1 n2 : nat) :
  (forall a, bounded f n1 (k a)) -> bounded f n2 d ->
  bounded f (Nat.max n1 n2)
          (match o with Some a => k a | None => d end).
Proof.
  intros Hk Hd. destruct o; eapply bounded_weaken; eauto; lia.
Qed.

Lemma bounded_handle {A} (clauses : list (list ExcClass * (PyExc -> M A))) e :
  Forall (fun clause => forall e', bounded f 0 (snd clause e')) clauses ->
  bounded f 0 (handle clauses e).
Proof.
  induction 1 as [|[classes handler] rest Hh _ IH]; cbn [handle].
  - intros s r s' Hr. injection Hr as <- <-.
    exists []. split; [now rewrite app_nil_r | reflexivity].
  - destruct (caught_by classes e); [apply Hh | exact IH].
Qed.

(** A [try] whose handlers log nothing that counts. *)
Lemma bounded_try {A} (body : M A) clauses (n : nat) :
  bounded f n body ->
  Forall (fun clause => forall e', bounded f 0 (snd clause e')) clauses ->
  bounded f n (try_except body clauses).
Proof.
  intros Hb Hc s r s' Hr. unfold try_except in Hr.
  destruct (body s) as [[a|e] s1] eqn:Hbs.
  - injection Hr as <- <-. exact (Hb _ _ _ Hbs).
  - destruct (Hb _ _ _ Hbs) as (evs1 & Hl1 & Hc1).
    destruct (bounded_handle clauses e Hc _ _ _ Hr) as (evs2 & Hl2 & Hc2).
    exists (evs1 ++ evs2). split.
    + rewrite Hl2, Hl1. now rewrite <- app_assoc.
    + rewrite count_if_app. lia.
Qed.

Lemma bounded_try1 {A} (body : M A) classes (handler : PyExc -> M A) (n : nat) :
  bounded f n body ->
  (forall e, bounded f 0 (handler e)) ->
  bounded f n (try_except body [(classes, handler)]).
Proof. intros Hb Hh. apply bounded_try; [exact Hb | now repeat constructor]. Qed.

Lemma bounded_try2 {A} (body : M A) classes1 (handler1 : PyExc -> M A)
    classes2 (handler2 : PyExc -> M A) (n : nat) :
  bounded f n body ->
  (forall e, bounded f 0 (handler1 e)) ->
  (forall e, bounded f 0 (handler2 e)) ->
  bounded f n (try_except body [(classes1, handler1); (classes2, handler2)]).
Proof. intros Hb H1 H2. apply bounded_try; [exact Hb | now repeat constructor]. Qed.

Lemma bounded_quiet {A} (m : M A) (ev : Event) :
  logs_call m ev -> f ev = false -> bounded f 0 m.
Proof.
  intros Hlog Hev s r s' Hr. exists [ev]. split.
  - specialize (Hlog s). now rewrite Hr in Hlog.
  - unfold count_if. cbn [List.filter]. now rewrite Hev.
Qed.

Lemma bounded_loud {A} (m : M A) (ev : Event) :
  logs_call m ev -> bounded f 1 m.
Proof.
  intros Hlog s r s' Hr. exists [ev]. split.
  - specialize (Hlog s). now rewrite Hr in Hlog.
  - unfold count_if. cbn [List.filter]. destruct (f ev); cbn; lia.
Qed.

Lemma bounded_locator_quiet :
  (forall p, f (EvExists p) = false) -> (forall cmd, f (EvWhich cmd) = false) ->
  bounded f 0 (get_sprite_binary_path h).
Proof.
  intros Hex Hwh s r s' Hr. rewrite get_sprite_binary_path_run in Hr.
  injection Hr as <- <-. exists (locate_log h (fs s)). split; [reflexivity|].
  rewrite count_if_none; [reflexivity|].
  eapply Forall_impl; [apply locate_log_queries|].
  intros [] Hq; try discriminate; [apply Hwh | apply Hex].
Qed.

Lemma bounded_locator_loud :
  (forall p, f (EvExists p) = false) ->
  bounded f 1 (get_sprite_binary_path h).
Proof.
  intros Hex s r s' Hr. rewrite get_sprite_binary_path_run in Hr.
  injection Hr as <- <-. exists (locate_log h (fs s)). split; [reflexivity|].
  unfold locate_log.
  change (EvWhich "sprite" :: ?l) with ([EvWhich "sprite"] ++ l).
  rewrite count_if_app.
  assert (Hscan : forall cs, count_if f (scan_log (fs s) cs) = 0%nat).
  { intros cs. apply count_if_none.
    induction cs as [|p rest IH]; cbn [scan_log]; [constructor|].
    constructor; [apply Hex|].
    destruct (exists_in (fs s) p); [constructor | exact IH]. }
  destruct (truthy (on_path (fs s)));
    [rewrite (count_if_none f []) by constructor | rewrite Hscan];
    unfold count_if; cbn [List.filter]; destruct (f _); cbn; lia.
Qed.

End Bounds.

(** ** The calls log themselves *)

Section Calls.

Variable h : Host.

Lemma print_logs text : logs_call (print text) (EvPrint text).
Proof. intros s. reflexivity. Qed.

Lemma subprocess_run_logs argv capture timeout :
  logs_call (subprocess_run h argv capture timeout)
            (EvRun argv capture timeout).
Proof.
  intros s. unfold subprocess_run.
  destruct (host_exec h argv (fs (emit (EvRun argv capture timeout) s)))
    as [[elapsed rc out err|e] f']; [|reflexivity].
  destruct timeout as [t|]; [|reflexivity].
  now destruct (t <? elapsed).
Qed.

Lemma NamedTemporaryFile_logs : logs_call (NamedTemporaryFile h) EvTempFile.
Proof. intros s. unfold NamedTemporaryFile. now destruct (host_tmpname h). Qed.

Lemma urlopen_read_logs url : logs_call (urlopen_read h url) (EvUrlopen url).
Proof. intros s. unfold urlopen_read. now destruct (host_urlopen h url). Qed.

Lemma file_write_logs name text :
  logs_call (file_write name text) (EvWrite name text).
Proof. intros s. reflexivity. Qed.

Lemma os_chmod_logs name mode : logs_call (os_chmod name mode) (EvChmod name mode).
Proof. intros s. unfold os_chmod. now destruct (bool_decide _). Qed.

Lemma os_unlink_logs name : logs_call (os_unlink name) (EvUnlink name).
Proof. intros s. unfold os_unlink. now destruct (bool_decide _). Qed.

Lemma time_sleep_logs secs : logs_call (time_sleep h secs) (EvSleep secs).
Proof. intros s. reflexivity. Qed.

Lemma path_exists_logs p : logs_call (path_exists p) (EvExists p).
Proof. intros s. reflexivity. Qed.

End Calls.

Create HintDb calls discriminated.
#[export] Hint Resolve print_logs subprocess_run_logs NamedTemporaryFile_logs
  urlopen_read_logs file_write_logs os_chmod_logs os_unlink_logs
  time_sleep_logs path_exists_logs : calls.

(** Walks a program of the monad and adds up how often it can log an
    event that the counter counts. *)
Ltac bound_step :=
  first
    [ eapply bounded_ret
    | eapply bounded_quiet; [solve [eauto with calls] | reflexivity]
    | eapply bounded_loud; solve [eauto with calls]
    | eapply bounded_locator_quiet; intros ?; reflexivity
    | eapply bounded_locator_loud; intros ?; reflexivity
    | eapply bounded_bind; [|intros ?]
    | eapply bounded_if
    | eapply bounded_option; [intros ?|]
    | eapply bounded_try1; [|intros ?; eapply bounded_weaken]
    | eapply bounded_try2;
        [|intros ?; eapply bounded_weaken|intros ?; eapply bounded_weaken] ].

Ltac bound_walk := eapply bounded_weaken; [repeat bound_step | ]; try lia.

Section MainBounds.

Variable h : Host.

Lemma main_installer_bound argv : bounded is_tempfile 1 (main h argv).
Proof.
  unfold main, run_sprite, ensure_sprite_installed, probe_block,
    install_sprite, install_body.
  bound_walk.
Qed.

Lemma main_locator_bound argv : bounded is_which 2 (main h argv).
Proof.
  unfold main, run_sprite, ensure_sprite_installed, probe_block,
    install_sprite, install_body.
  bound_walk.
Qed.

Lemma main_probe_bound argv : bounded is_probe_run 1 (main h argv).
Proof.
  unfold main, run_sprite, ensure_sprite_installed, probe_block,
    install_sprite, install_body.
  bound_walk.
Qed.

Lemma main_delegation_bound argv : bounded is_delegation 1 (main h argv).
Proof.
  unfold main, run_sprite, ensure_sprite_installed, probe_block,
    install_sprite, install_body.
  bound_walk.
Qed.

End MainBounds.

(** X1. Whatever the host does, one run of main calls the installer at
    most once, runs the locator at most twice, probes at most once and
    delegates at most once: nothing is retried. *)
Theorem main_never_retries (h : Host) (argv : list string) (s : Sys) :
  exists evs,
    log (snd (main h argv s)) = log s ++ evs
    /\ (installer_calls evs <= 1)%nat
    /\ (locator_runs evs <= 2)%nat
    /\ (probe_runs evs <= 1)%nat
    /\ (delegations evs <= 1)%nat.
Proof.
  destruct (main h argv s) as [r s'] eqn:Hrun. cbn [snd].
  destruct (main_installer_bound h argv _ _ _ Hrun) as (evs & Hlog & Hinst).
  destruct (main_locator_bound h argv _ _ _ Hrun) as (evs2 & Hlog2 & Hloc).
  destruct (main_probe_bound h argv _ _ _ Hrun) as (evs3 & Hlog3 & Hprobe).
  destruct (main_delegation_bound h argv _ _ _ Hrun) as (evs4 & Hlog4 & Hdel).
  rewrite Hlog in Hlog2, Hlog3, Hlog4.
  apply app_inv_head in Hlog2, Hlog3, Hlog4. subst evs2 evs3 evs4.
  exists evs. repeat split; assumption.
Qed.

(** ** What follows the start of an installation *)

(** After its first call, an installation creates no further temporary
    file, probes nothing and delegates nothing. *)
Lemma install_sprite_shape (h : Host) (s : Sys) r (s' : Sys) :
  install_sprite h s = (r, s') ->
  exists rest,
    log s' = log s ++ EvTempFile :: rest
    /\ Forall (fun ev => is_tempfile ev = false /\ is_probe_run ev = false
                         /\ is_delegation ev = false) rest.
Proof.
  unfold install_sprite, try_except, install_body.
  match goal with
  | |- context [bind (NamedTemporaryFile h) ?k] => set (rest_of := k)
  end.
  set (P := fun ev => is_tempfile ev = false /\ is_probe_run ev = false
                      /\ is_delegation ev = false).
  assert (Hrest : forall name, extends_with P (rest_of name)).
  { intros name. subst rest_of. cbv beta.
    repeat first
      [ apply extends_ret
      | apply extends_print; now repeat split
      | apply extends_subprocess_run; now repeat split
      | apply extends_urlopen_read; now repeat split
      | apply extends_file_write; now repeat split
      | apply extends_os_chmod; now repeat split
      | apply extends_os_unlink; now repeat split
      | apply extends_time_sleep; now repeat split
      | apply extends_get_sprite_binary_path; intros [] ?;
          (discriminate || now repeat split)
      | apply extends_bind; [|intros ?]
      | match goal with
        | |- extends_with _ (if ?c then _ else _) => destruct c
        | |- extends_with _ (match ?x with _ => _ end) => destruct x
        end ]. }
  assert (Hhandle : forall e,
            extends_with P
              (handle [([Exception],
                        fun e => bind (print ("❌ Installation failed: " +:+ exc_msg e))
                                      (fun _ => ret (None : option Path)))] e)).
  { intros e. apply extends_handle. repeat constructor. intros e'. cbn [snd].
    apply extends_bind; [apply extends_print; now repeat split|].
    intros _. apply extends_ret. }
  unfold bind at 1. unfold NamedTemporaryFile.
  destruct (host_tmpname h) as [e|name].
  - intros Hr. destruct (Hhandle e _ _ _ Hr) as (evs & Hl & HP).
    exists evs. split; [|exact HP]. rewrite Hl. sys_simpl. now log_norm.
  - destruct (rest_of name _) as [[a|e] s1] eqn:Hk; intros Hr.
    + injection Hr as <- <-.
      destruct (Hrest name _ _ _ Hk) as (evs & Hl & HP).
      exists evs. split; [|exact HP]. rewrite Hl. sys_simpl. now log_norm.
    + destruct (Hrest name _ _ _ Hk) as (evs1 & Hl1 & HP1).
      destruct (Hhandle e _ _ _ Hr) as (evs2 & Hl2 & HP2).
      exists (evs1 ++ evs2). split; [|now apply Forall_app].
      rewrite Hl2, Hl1. sys_simpl. now log_norm.
Qed.

(** What run_sprite adds once ensure_sprite_installed is done. *)
Lemma run_sprite_tail (h : Host) (args : list string) (s s1 : Sys) x :
  ensure_sprite_installed h s = (x, s1) ->
  exists tail,
    log (snd (run_sprite h args s)) = log s1 ++ tail
    /\ Forall (fun ev => is_tempfile ev = false /\ is_probe_run ev = false) tail.
Proof.
  intros Hens. unfold run_sprite, bind. rewrite Hens.
  destruct x as [[p|]|e]; cbn [snd].
  - match goal with
    | |- context [try_except ?b ?c s1] =>
        destruct (try_except b c s1) as [r s2] eqn:Hrun;
        assert (Hext : extends_with
                  (fun ev => is_tempfile ev = false /\ is_probe_run ev = false)
                  (try_except b c))
    end.
    { apply extends_try.
      - apply extends_bind; [apply extends_subprocess_run; now split|].
        intros ?. apply extends_ret.
      - repeat constructor; intros e'; cbn [snd];
          (apply extends_bind; [apply extends_print; now split|]);
          intros _; apply extends_ret. }
    exact (Hext _ _ _ Hrun).
  - exists [EvPrint "❌ Failed to install or find sprite"].
    split; [reflexivity | now repeat constructor].
  - exists []. split; [now rewrite app_nil_r | constructor].
Qed.

(** X2. When the locator finds nothing, main prints the banner right
    after the locator's queries and calls the installer, exactly once in
    the whole run, and no probe is run at all. *)
Theorem absent_binary_installs_once (h : Host) (argv : list string) (s : Sys) :
  located h (fs s) = None ->
  informational argv = false ->
  exists rest,
    log (snd (main h argv s)) =
      log s ++ locate_log h (fs s) ++ INSTALLING :: EvTempFile :: rest
    /\ installer_calls (locate_log h (fs s) ++ INSTALLING :: EvTempFile :: rest)
       = 1%nat
    /\ probe_runs (locate_log h (fs s) ++ INSTALLING :: EvTempFile :: rest)
       = 0%nat.
Proof.
  intros Hloc Hargv. rewrite main_delegates by exact Hargv.
  destruct (ensure_sprite_installed h s) as [x s1] eqn:Hens.
  destruct (run_sprite_tail h (drop 1 argv) s s1 x Hens) as (tail & Htail & Hquiet).
  rewrite ensure_sprite_installed_split, locate_and_probe_run, Hloc in Hens.
  rewrite probe_block_absent in Hens.
  destruct (install_sprite_shape h _ _ _ Hens) as (rest & Hrest & Hcalm).
  exists (rest ++ tail). split; [|split].
  - rewrite Htail, Hrest. sys_simpl. now log_norm.
  - change (count_if is_tempfile
              (locate_log h (fs s) ++ [INSTALLING; EvTempFile] ++ rest ++ tail)
            = 1%nat).
    rewrite !count_if_app.
    change (count_if is_tempfile (locate_log h (fs s)))
      with (installer_calls (locate_log h (fs s))).
    rewrite installer_calls_queries by apply locate_log_queries.
    rewrite (count_if_none is_tempfile rest), (count_if_none is_tempfile tail);
      [reflexivity | |].
    + eapply Forall_impl; [exact Hquiet|]. now intros ev [? ?].
    + eapply Forall_impl; [exact Hcalm|]. now intros ev (? & ? & ?).
  - unfold probe_runs.
    change (count_if is_probe_run
              (locate_log h (fs s) ++ [INSTALLING; EvTempFile] ++ rest ++ tail)
            = 0%nat).
    rewrite !count_if_app.
    rewrite (count_if_none is_probe_run (locate_log h (fs s))),
      (count_if_none is_probe_run rest), (count_if_none is_probe_run tail);
      [reflexivity | | |].
    + eapply Forall_impl; [exact Hquiet|]. now intros ev [? ?].
    + eapply Forall_impl; [exact Hcalm|]. now intros ev (? & ? & ?).
    + eapply Forall_impl; [apply locate_log_queries|].
      intros [] ?; (discriminate || reflexivity).
Qed.

(** X3. A binary that is found and does not pass the probe (it exits
    non-zero, it runs past the ten units, or the call raises one of the
    exceptions the clause lists) is reinstalled: after the locator's
    queries, the existence check and the probe, the next thing is the
    banner and the installer; nothing about the failed probe is
    printed. *)
Theorem unusable_binary_is_reinstalled (h : Host) (s : Sys) (p : Path)
    (b : Behaviour) (f' : FS) :
  located h (fs s) = Some p ->
  p ∈ present (fs s) ->
  host_exec h [p; "--version"] (fs s) = (b, f') ->
  match b with
  | Exits elapsed rc _ _ => 10 < elapsed \/ rc <> 0
  | Fails e =>
      In (exc_class e)
         [TimeoutExpired; SubprocessError; CalledProcessError; FileNotFoundError]
  end ->
  ensure_sprite_installed h s =
    install_sprite h
      (mkSys f' (tmp s)
             (log s ++ locate_log h (fs s)
                ++ [EvExists p; EvRun [p; "--version"] true (Some 10);
                    INSTALLING])).
Proof.
  intros Hloc Hin Hex Hbad.
  apply (probe_failure_installs h s p b f' Hloc Hin Hex).
  now apply probe_verdict_fails.
Qed.

(** The handler of install_sprite turns every [Exception] into a
    return, so what it lets through is an interrupt. *)
Lemma install_sprite_lets_interrupt_through (h : Host) (s s' : Sys) (e : PyExc) :
  install_sprite h s = (Raise e, s') -> exc_class e = KeyboardInterrupt.
Proof.
  unfold install_sprite, try_except.
  destruct (install_body h s) as [[a|e0] s1]; [discriminate|].
  cbn [handle]. unfold caught_by. cbn [existsb].
  destruct (interrupt_or_Exception (exc_class e0)) as [Hk|Hk].
  - rewrite Hk. cbn. unfold raise. intros Hr. injection Hr as <- _. exact Hk.
  - rewrite Hk. cbn. discriminate.
Qed.

(** X4. install_sprite reports every error itself: when any step of its
    body raises an exception other than KeyboardInterrupt, it prints
    "Installation failed: " with the text of the exception and returns
    [None]; the only exception it can raise is KeyboardInterrupt. *)
Theorem install_sprite_reports_every_error (h : Host) (s : Sys) :
  (forall e s1,
     install_body h s = (Raise e, s1) ->
     exc_class e <> KeyboardInterrupt ->
     install_sprite h s =
       (Ret None, emit (EvPrint ("❌ Installation failed: " +:+ exc_msg e)) s1))
  /\ (forall e s',
     install_sprite h s = (Raise e, s') -> exc_class e = KeyboardInterrupt).
Proof.
  split.
  - intros e s1 Hbody Hc. unfold install_sprite.
    rewrite (try_except_Raise _ _ _ _ _ Hbody). cbn [handle].
    unfold caught_by. cbn [existsb].
    destruct (interrupt_or_Exception (exc_class e)) as [Hk|Hk]; [contradiction|].
    now rewrite Hk.
  - intros e s'. apply install_sprite_lets_interrupt_through.
Qed.

(** ** What can leave main *)



(** ** Failures before the script runs *)

Lemma install_sprite_no_tempfile (h : Host) (s : Sys) (e : PyExc) :
  host_tmpname h = inl e ->
  exc_class e <> KeyboardInterrupt ->
  install_sprite h s =
    (Ret None,
     mkSys (fs s) (tmp s)
           (log s ++ [ EvTempFile;
                       EvPrint ("❌ Installation failed: " +:+ exc_msg e) ])).
Proof.
  intros Htmp Hc.
  unfold install_sprite, try_except, install_body, bind.
  unfold NamedTemporaryFile. rewrite Htmp.
  cbn [handle]. unfold caught_by. cbn [existsb].
  destruct (interrupt_or_Exception (exc_class e)) as [Hk|Hk]; [contradiction|].
  rewrite Hk. cbn. unfold print, bind. run_simpl. now log_norm.
Qed.


(** X7. When no temporary file can be created, nothing is downloaded and
    nothing is left behind: the launcher prints the installer's failure
    line with the text of the error, then its own, and returns 1, with
    the filesystem and the temporary files as they were. *)
Theorem tempfile_failure_leaves_nothing (h : Host) (argv : list string)
    (s0 s1 : Sys) (e : PyExc) :
  informational argv = false ->
  locate_and_probe h s0 = (Ret None, s1) ->
  host_tmpname h = inl e ->
  exc_class e <> KeyboardInterrupt ->
  main h argv s0 =
    (Ret 1,
     mkSys (fs s1) (tmp s1)
           (log s1 ++ [ INSTALLING;
                        EvTempFile;
                        EvPrint ("❌ Installation failed: " +:+ exc_msg e);
                        EvPrint "❌ Failed to install or find sprite" ])).
Proof.
  intros Hargv Hreach Htmp Hc. rewrite main_delegates by exact Hargv.
  erewrite run_sprite_no_path.
  2:{ rewrite ensure_sprite_installed_split, Hreach.
      now apply (install_sprite_no_tempfile h _ e). }
  sys_simpl. now log_norm.
Qed.

(** ** The temporary script *)

(** X8. When the script runs to its end, whatever its exit status, the
    set of temporary files after install_sprite is the set before it:
    the script's file is gone and no other file was touched. *)
Theorem install_restores_temporary_files (h : Host) (s : Sys)
    (name text : string) (elapsed rc : Z) (out err : string) (f1 : FS) :
  host_tmpname h = inr name ->
  name ∉ tmp s ->
  host_urlopen h INSTALL_SCRIPT_URL = inr text ->
  host_exec h [name] (fs s) = (Exits elapsed rc out err, f1) ->
  tmp (snd (install_sprite h s)) = tmp s.
Proof.
  intros Htmp Hfresh Hnet Hex.
  rewrite (install_sprite_script_exits h s name text elapsed rc out err f1)
    by assumption.
  destruct (rc =? 0); cbn [snd tmp]; apply set_eq; intros x;
    rewrite elem_of_difference, elem_of_union, elem_of_singleton;
    split; [intros [[->|Hx] Hne]; [contradiction | exact Hx]
           | intros Hx; split; [now right | now intros ->]
           | intros [[->|Hx] Hne]; [contradiction | exact Hx]
           | intros Hx; split; [now right | now intros ->] ].
Qed.

(** X9. With the temporary file created as [name], everything
    install_sprite does concerns that file and the fixed address: the
    one program it runs is [name] with no arguments, captured and
    without a timeout; what it writes, makes executable and removes is
    [name]; what it downloads is INSTALL_SCRIPT_URL. *)
Theorem install_sprite_minds_its_own_business (h : Host) (s : Sys)
    (name : string) :
  host_tmpname h = inr name ->
  exists evs,
    log (snd (install_sprite h s)) = log s ++ evs
    /\ Forall (own_business name) evs.
Proof.
  intros Htmp.
  destruct (install_sprite h s) as [r s'] eqn:Hrun. cbn [snd].
  revert Hrun. unfold install_sprite, try_except, install_body.
  match goal with
  | |- context [bind (NamedTemporaryFile h) ?k] => set (rest_of := k)
  end.
  assert (Hrest : extends_with (own_business name) (rest_of name)).
  { subst rest_of. cbv beta.
    repeat first
      [ apply extends_ret
      | apply extends_print; exact I
      | apply extends_subprocess_run; now repeat split
      | apply extends_urlopen_read; reflexivity
      | apply extends_file_write; reflexivity
      | apply extends_os_chmod; reflexivity
      | apply extends_os_unlink; reflexivity
      | apply extends_time_sleep; exact I
      | apply extends_get_sprite_binary_path; intros [] ?;
          (discriminate || exact I)
      | apply extends_bind; [|intros ?]
      | match goal with
        | |- extends_with _ (if ?c then _ else _) => destruct c
        | |- extends_with _ (match ?x with _ => _ end) => destruct x
        end ]. }
  assert (Hhandle : forall e,
            extends_with (own_business name)
              (handle [([Exception],
                        fun e => bind (print ("❌ Installation failed: " +:+ exc_msg e))
                                      (fun _ => ret (None : option Path)))] e)).
  { intros e. apply extends_handle. repeat constructor. intros e'. cbn [snd].
    apply extends_bind; [apply extends_print; exact I|].
    intros _. apply extends_ret. }
  unfold bind at 1. unfold NamedTemporaryFile. rewrite Htmp.
  destruct (rest_of name _) as [[a|e] s1] eqn:Hk; intros Hr.
  - injection Hr as <- <-.
    destruct (Hrest _ _ _ Hk) as (evs & Hl & HP).
    exists (EvTempFile :: evs). split; [|now constructor].
    rewrite Hl. sys_simpl. now log_norm.
  - destruct (Hrest _ _ _ Hk) as (evs1 & Hl1 & HP1).
    destruct (Hhandle e _ _ _ Hr) as (evs2 & Hl2 & HP2).
    exists (EvTempFile :: evs1 ++ evs2). split.
    + rewrite Hl2, Hl1. sys_simpl. now log_norm.
    + constructor; [exact I | now apply Forall_app].
Qed.

(** ** Where the flags count *)

(** X10. The version and help tokens count in the first position only:
    with any other first argument the whole argument list, flags
    included, goes to run_sprite, and with no argument at all run_sprite
    is called with the empty list. *)
Theorem flags_only_in_first_position (h : Host) (prog first : string)
    (rest : list string) (s : Sys) :
  (first ∉ ["--version"; "-V"; "--help"; "-h"] ->
     main h (prog :: first :: rest) s = run_sprite h (first :: rest) s)
  /\ main h [prog] s = run_sprite h [] s
  /\ main h [] s = run_sprite h [] s.
Proof.
  split; [|split; reflexivity].
  intros Hnot. apply main_delegates. unfold informational.
  rewrite !argv1_in_cons. apply orb_false_iff.
  split; apply bool_decide_eq_false_2; intros Hin; apply Hnot;
    rewrite !elem_of_cons in *; tauto.
Qed.

(** ** From installation to delegation *)


(** A path that install_sprite returns is what the locator answers for
    the filesystem install_sprite leaves. *)
Lemma install_sprite_returns_located (h : Host) (s s' : Sys) (q : Path) :
  install_sprite h s = (Ret (Some q), s') -> located h (fs s') = Some q.
Proof.
  unfold install_sprite, try_except.
  destruct (install_body h s) as [[a|e] s1] eqn:Hbody.
  - intros Hr. injection Hr as -> ->.
    unfold install_body, bind in Hbody.
    repeat match type of Hbody with
           | (let (_, _) := ?m in _) = _ =>
               destruct m as [[?|?] ?] eqn:?; [|discriminate];
               cbv beta iota in Hbody
           | (if ?c then _ else _) _ = _ => destruct c; cbv beta iota in Hbody
           | match ?x with Some _ => _ | None => _ end _ = _ =>
               destruct x; cbv beta iota in Hbody
           end;
      try discriminate.
    unfold ret in Hbody. injection Hbody as <- <-.
    match goal with
    | Hq : get_sprite_binary_path h _ = _ |- _ =>
        rewrite get_sprite_binary_path_run in Hq; injection Hq as Hq <-;
        exact Hq
    end.
  - cbn [handle]. destruct (caught_by [Exception] e); discriminate.
Qed.

(** X12. The path ensure_sprite_installed returns always comes from the
    locator: it is the locator's answer for the filesystem at the start
    (and then it has passed the probe), or its answer for the filesystem
    at the end of the installation. *)
Theorem ensure_returns_a_located_path (h : Host) (s s1 : Sys) (q : Path) :
  ensure_sprite_installed h s = (Ret (Some q), s1) ->
  (located h (fs s) = Some q
   /\ exists elapsed out err f',
        host_exec h [q; "--version"] (fs s) = (Exits elapsed 0 out err, f')
        /\ elapsed <= 10)
  \/ located h (fs s1) = Some q.
Proof.
  rewrite ensure_sprite_installed_split, locate_and_probe_run.
  destruct (located h (fs s)) as [p|] eqn:Hloc.
  - destruct (decide (p ∈ present (fs s))) as [Hin|Hno].
    + destruct (host_exec h [p; "--version"] (fs s)) as [b f'] eqn:Hex.
      erewrite probe_block_run; [|exact Hin|exact Hex].
      destruct (probe_verdict p b) as [[p'|]|e] eqn:Hverdict.
      * intros Hr. injection Hr as <- <-. left.
        assert (p' = p) as ->.
        { destruct b as [elapsed rc out err|e]; cbn [probe_verdict] in Hverdict.
          - destruct (10 <? elapsed); [discriminate|].
            destruct (rc =? 0); now inversion Hverdict.
          - now destruct (caught_by _ e). }
        split; [reflexivity|].
        apply probe_verdict_passes in Hverdict
          as (elapsed & out & err & -> & Hfast).
        now exists elapsed, out, err, f'.
      * intros Hr. right. now apply install_sprite_returns_located in Hr.
      * discriminate.
    + rewrite probe_block_missing by exact Hno.
      intros Hr. right. now apply install_sprite_returns_located in Hr.
  - rewrite probe_block_absent.
    intros Hr. right. now apply install_sprite_returns_located in Hr.
Qed.

(** ** The further theorems at concrete hosts *)

Module Evidence.

Import Scenario.

(** Nothing installed: one installation, no probe. *)
Lemma absent :
  exists rest,
    log (snd (main healthy argv bare)) =
      log bare ++ locate_log healthy (fs bare)
        ++ INSTALLING :: EvTempFile :: rest
    /\ installer_calls (locate_log healthy (fs bare)
                          ++ INSTALLING :: EvTempFile :: rest) = 1%nat
    /\ probe_runs (locate_log healthy (fs bare)
                     ++ INSTALLING :: EvTempFile :: rest) = 0%nat.
Proof.
  apply (absent_binary_installs_once healthy argv bare).
  - vm_compute. reflexivity.
  - reflexivity.
Defined.

(** A binary whose version query never answers is reinstalled, and so is
    one that answers with exit status 2. *)
Lemma reinstalled :
  ensure_sprite_installed probe_hangs off_search_path =
    install_sprite probe_hangs
      (mkSys (fs off_search_path) ∅
             (locate_log probe_hangs (fs off_search_path)
                ++ [ EvExists system_sprite;
                     EvRun [system_sprite; "--version"] true (Some 10);
                     INSTALLING ]))
  /\ ensure_sprite_installed Hosts.broken off_search_path =
    install_sprite Hosts.broken
      (mkSys (fs off_search_path) ∅
             (locate_log Hosts.broken (fs off_search_path)
                ++ [ EvExists system_sprite;
                     EvRun [system_sprite; "--version"] true (Some 10);
                     INSTALLING ])).
Proof.
  split.
  - apply (unusable_binary_is_reinstalled probe_hangs off_search_path
             system_sprite (Exits 3600 0 "" "") (fs off_search_path)).
    + vm_compute. reflexivity.
    + vm_compute. reflexivity.
    + vm_compute. reflexivity.
    + left. lia.
  - apply (unusable_binary_is_reinstalled Hosts.broken off_search_path
             system_sprite (Exits 1 2 "" "sprite: bad config")
             (fs off_search_path)).
    + vm_compute. reflexivity.
    + vm_compute. reflexivity.
    + vm_compute. reflexivity.
    + right. discriminate.
Defined.

(** Without network the installer reports the URLError and returns. *)
Lemma reported :
  install_sprite offline bare =
    (Ret None,
     emit (EvPrint "❌ Installation failed: <urlopen error [Errno -2] Name or service not known>")
          (snd (install_body offline bare)))
  /\ exc_class (mkExc KeyboardInterrupt "") = KeyboardInterrupt.
Proof.
  destruct (install_sprite_reports_every_error offline bare) as [Hreport _].
  destruct (install_sprite_reports_every_error interrupted_at_download bare)
    as [_ Honly].
  split.
  - apply (Hreport
             (mkExc URLError "<urlopen error [Errno -2] Name or service not known>")).
    + vm_compute. reflexivity.
    + discriminate.
  - apply (Honly ctrl_c (snd (install_sprite interrupted_at_download bare))).
    vm_compute. reflexivity.
Defined.



(** No temporary directory: nothing is downloaded, exit code 1. *)
Lemma no_tempfile :
  fst (main Hosts.no_tmp argv bare) = Ret 1.
Proof.
  rewrite (tempfile_failure_leaves_nothing Hosts.no_tmp argv bare
             (snd (locate_and_probe Hosts.no_tmp bare))
             (mkExc FileNotFoundError
                    "[Errno 2] No usable temporary directory found")).
  - reflexivity.
  - reflexivity.
  - vm_compute. reflexivity.
  - reflexivity.
  - discriminate.
Defined.

(** After a successful installation no temporary file is left. *)
Lemma cleaned_up : tmp (snd (install_sprite healthy bare)) = tmp bare.
Proof.
  apply (install_restores_temporary_files healthy bare script
           "#!/bin/sh
cargo install sprite
" 40 0 "" "" (mkFS None ({[local_sprite]} ∪ ∅))).
  - reflexivity.
  - apply not_elem_of_empty.
  - reflexivity.
  - vm_compute. reflexivity.
Defined.

(** The installer at work on /tmp/tmpk3x9q2.sh. *)
Lemma own_script :
  exists evs,
    log (snd (install_sprite healthy bare)) = log bare ++ evs
    /\ Forall (own_business script) evs.
Proof.
  apply (install_sprite_minds_its_own_business healthy bare script).
  reflexivity.
Defined.

(** [sprite status --help] is forwarded, help flag included. *)
Lemma forwarded_flag :
  main healthy ["sprite"; "status"; "--help"] on_search_path =
    run_sprite healthy ["status"; "--help"] on_search_path.
Proof.
  apply (proj1 (flags_only_in_first_position healthy "sprite" "status"
                  ["--help"] on_search_path)).
  intros Hin. apply list_elem_of_In in Hin. simpl in Hin.
  intuition discriminate.
Defined.


(** On the happy path the returned path is the one located first. *)
Lemma returned_path :
  (located healthy (fs on_search_path) = Some system_sprite
   /\ exists elapsed out err f',
        host_exec healthy [system_sprite; "--version"] (fs on_search_path)
          = (Exits elapsed 0 out err, f')
        /\ elapsed <= 10)
  \/ located healthy
       (fs (snd (ensure_sprite_installed healthy on_search_path)))
     = Some system_sprite.
Proof.
  apply (ensure_returns_a_located_path healthy on_search_path).
  vm_compute. reflexivity.
Defined.

End Evidence.
